(** * PredictiveMaintenanceETL: validation and metrics engine

    A shallow embedding of [CSV_ETL_PredictiveMaintenance-AI.py] and the
    properties of its schema validator ([validate_data]), of its metrics
    calculator ([calculate_metrics]) and of the pipeline around them
    ([process_csv_data]).

    Data model.
    - A raw record (one row of [csv.DictReader]) is a
      [gmap string (option string)]: field name to cell. A cell is the text
      of the field, [Some text], or Python's [None], which the reader stores
      under the fields a short line leaves out. The list a long line adds
      under the key [None] has no field name; no code reads it and it is
      left out.
    - A validated record is the dict that [validate_data] fills, a
      [gmap string value], where a [value] is a Python [str], [int] or
      [float].
    - Python [int] is [Z]; Python [float] is the binary64 type [float] of
      Rocq, with the IEEE operations of [PrimFloat]. Decimal text and
      [round] go through the exact integers of [SpecFloat].
    - An uncaught Python exception is the [Raise] outcome of [result].

    Strings are byte strings; the text is taken to be ASCII (the white
    space and the digits of [str.strip], [int] and [float] are the ASCII
    ones). *)

From Stdlib Require Import ZArith Floats Ascii String Sorted.
From stdpp Require Import base option list gmap strings pretty.

Local Open Scope Z_scope.

(** ** Python outcomes *)

Inductive exn :=
  | ZeroDivisionError
  | OverflowError
  | IndexError
  | KeyError
  | TypeError
  | AttributeError.

Inductive result (A : Type) :=
  | Ret (a : A)
  | Raise (e : exn).
Arguments Ret {A} a.
Arguments Raise {A} e.

#[global] Instance result_ret : MRet result := @Ret.

#[global] Instance result_bind : MBind result := fun A B k r =>
  match r with
  | Ret a => k a
  | Raise e => Raise e
  end.

(** A [for] loop over [l] whose body may raise, on the state [acc]. *)
Fixpoint for_each {A B} (body : A -> B -> result A) (acc : A) (l : list B) : result A :=
  match l with
  | [] => Ret acc
  | b :: l' => acc' ← body acc b; for_each body acc' l'
  end.

(** A list comprehension whose body may raise. *)
Fixpoint comprehension {A B} (f : A -> result B) (l : list A) : result (list B) :=
  match l with
  | [] => Ret []
  | a :: l' => b ← f a; bs ← comprehension f l'; Ret (b :: bs)
  end.

(** ** Python values held by a validated record *)

Inductive value :=
  | VStr (s : string)
  | VInt (n : Z)
  | VFloat (x : float).

(** ** The Python built-ins the program calls *)

Module Py.

(** *** [str.strip] and [str.join] *)

(** White space of [str.strip]: TAB..CR, FS..US and the space. *)
Definition is_space (c : ascii) : bool :=
  let n := N_of_ascii c in
  ((9 <=? n)%N && (n <=? 13)%N) || ((28 <=? n)%N && (n <=? 32)%N).

(** White space skipped by [int] and [float] on ASCII text: TAB..CR and
    the space. *)
Definition is_cspace (c : ascii) : bool :=
  let n := N_of_ascii c in
  ((9 <=? n)%N && (n <=? 13)%N) || (n =? 32)%N.

Fixpoint lstrip_by (sp : ascii -> bool) (s : string) : string :=
  match s with
  | String c s' => if sp c then lstrip_by sp s' else s
  | EmptyString => EmptyString
  end.

Definition strip_by (sp : ascii -> bool) (s : string) : string :=
  String.rev (lstrip_by sp (String.rev (lstrip_by sp s))).

Definition strip : string -> string := strip_by is_space.

Definition join (sep : string) (l : list string) : string := String.concat sep l.

(** [str(n)] for an [int]. *)
Definition str_of_int (n : Z) : string := pretty n.

(** *** [int(s)] in base 10: an optional sign, then digits, a single
    underscore allowed between two digits. [None] is [ValueError]. The
    limit CPython puts on the number of digits (4300 by default) is left
    out. *)

Definition digit (c : ascii) : option Z :=
  let n := N_of_ascii c in
  if ((48 <=? n)%N && (n <=? 57)%N) then Some (Z.of_N n - 48) else None.

Definition is_digit (c : ascii) : bool :=
  match digit c with Some _ => true | None => false end.

Fixpoint digits (acc : Z) (after_digit : bool) (s : string) : option Z :=
  match s with
  | EmptyString => if after_digit then Some acc else None
  | String c s' =>
      match digit c with
      | Some d => digits (10 * acc + d) true s'
      | None =>
          if bool_decide (c = "_"%char) && after_digit
          then digits acc false s'
          else None
      end
  end.

Definition signed (s : string) : bool * string :=
  match s with
  | String "-" s' => (true, s')
  | String "+" s' => (false, s')
  | _ => (false, s)
  end.

Definition int (s : string) : option Z :=
  let '(neg, body) := signed (strip_by is_cspace s) in
  n ← digits 0 false body;
  Some (if neg then - n else n).

(** *** Correct rounding to binary64 *)

(** The binary64 number nearest to [n / d] (ties to even), for [0 <= n]
    and [0 < d], with the sign [neg]: the quotient is taken with enough
    bits for the format and rounded once, from the remainder. *)
Definition sf_of_ratio (neg : bool) (n d : Z) : spec_float :=
  if n =? 0 then S754_zero neg
  else
    let e' := Z.min (fexp prec emax (Zdigits2 n - Zdigits2 d)) 0 in
    let '(q, r) := Z.div_eucl (Z.shiftl n (- e')) d in
    binary_round_aux prec emax neg q e' (new_location d r).

Definition float_of_ratio (neg : bool) (n d : Z) : float :=
  SF2Prim (sf_of_ratio neg n d).

(** [float(n)] for an [int]; an [int] operand of a [float] operation is
    converted this way. *)
Definition float_of_int (n : Z) : result float :=
  let x := float_of_ratio (n <? 0) (Z.abs n) 1 in
  if is_infinity x then Raise OverflowError else Ret x.

(** *** [round(x, 2)] *)

(** The integer nearest to [n / d], ties to even, for [0 <= n], [0 < d]. *)
Definition div_half_even (n d : Z) : Z :=
  let '(q, r) := Z.div_eucl n d in
  match 2 * r ?= d with
  | Lt => q
  | Gt => q + 1
  | Eq => if Z.even q then q else q + 1
  end.

(** [round(x, 2)] for a [float]: the exact value of [x] is rounded to two
    decimals, ties to even, and the decimal result is read back as the
    nearest [float]. An infinity, a NaN and a zero round to themselves. *)
Definition round2 (x : float) : float :=
  match Prim2SF x with
  | S754_finite s m e =>
      let hundredths :=
        if 0 <=? e then Z.pos m * 2 ^ e * 100
        else div_half_even (Z.pos m * 100) (2 ^ (- e)) in
      float_of_ratio s hundredths 100
  | _ => x
  end.

(** [round(v, 2)]: an [int] rounds to itself, a [str] has no [__round__]. *)
Definition round (v : value) : result value :=
  match v with
  | VFloat x => Ret (VFloat (round2 x))
  | VInt n => Ret (VInt n)
  | VStr _ => Raise TypeError
  end.

(** *** Arithmetic and comparison on [int] and [float] operands *)

Definition float_div (a b : float) : result float :=
  if (b =? 0)%float then Raise ZeroDivisionError else Ret (a / b)%float.

(** [a / b] on two [int]s: the correctly rounded quotient. *)
Definition int_truediv (a b : Z) : result float :=
  if b =? 0 then Raise ZeroDivisionError
  else
    let x := float_of_ratio (negb (Bool.eqb (a <? 0) (b <? 0))) (Z.abs a) (Z.abs b) in
    if is_infinity x then Raise OverflowError else Ret x.

Definition truediv (a b : value) : result float :=
  match a, b with
  | VInt x, VInt y => int_truediv x y
  | VInt x, VFloat y => x' ← float_of_int x; float_div x' y
  | VFloat x, VInt y => y' ← float_of_int y; float_div x y'
  | VFloat x, VFloat y => float_div x y
  | _, _ => Raise TypeError
  end.

Fixpoint repeat_str (n : nat) (s : string) : string :=
  match n with
  | O => EmptyString
  | S n' => s +:+ repeat_str n' s
  end.

Definition mul (a b : value) : result value :=
  match a, b with
  | VInt x, VInt y => Ret (VInt (x * y))
  | VInt x, VFloat y => x' ← float_of_int x; Ret (VFloat (x' * y)%float)
  | VFloat x, VInt y => y' ← float_of_int y; Ret (VFloat (x * y')%float)
  | VFloat x, VFloat y => Ret (VFloat (x * y)%float)
  | VStr s, VInt n | VInt n, VStr s => Ret (VStr (repeat_str (Z.to_nat n) s))
  | _, _ => Raise TypeError
  end.

Definition sub (a b : value) : result value :=
  match a, b with
  | VInt x, VInt y => Ret (VInt (x - y))
  | VInt x, VFloat y => x' ← float_of_int x; Ret (VFloat (x' - y)%float)
  | VFloat x, VInt y => y' ← float_of_int y; Ret (VFloat (x - y')%float)
  | VFloat x, VFloat y => Ret (VFloat (x - y)%float)
  | _, _ => Raise TypeError
  end.

(** A [float] is compared with an [int] by value, without conversion;
    [None] when the [float] is a NaN. *)
Definition compare_float_int (x : float) (n : Z) : option comparison :=
  match Prim2SF x with
  | S754_nan => None
  | S754_infinity s => Some (if s then Lt else Gt)
  | S754_zero _ => Some (0 ?= n)
  | S754_finite s m e =>
      let v := if s then Z.neg m else Z.pos m in
      Some (if 0 <=? e then v * 2 ^ e ?= n else v ?= n * 2 ^ (- e))
  end.

Definition float_lt_int (x : float) (n : Z) : bool :=
  match compare_float_int x n with Some Lt => true | _ => false end.

Definition float_gt_int (x : float) (n : Z) : bool :=
  match compare_float_int x n with Some Gt => true | _ => false end.

Definition float_le_int (x : float) (n : Z) : bool :=
  match compare_float_int x n with Some (Lt | Eq) => true | _ => false end.

Definition float_ge_int (x : float) (n : Z) : bool :=
  match compare_float_int x n with Some (Gt | Eq) => true | _ => false end.

(** [x > v] for a [float] [x]. *)
Definition float_gt (x : float) (v : value) : result bool :=
  match v with
  | VFloat y => Ret (y <? x)%float
  | VInt n => Ret (float_gt_int x n)
  | VStr _ => Raise TypeError
  end.

(** *** [float(s)]. [None] is [ValueError]. *)

(** Underscores are allowed between two digits only, and are dropped. *)
Fixpoint underscores (prev : ascii) (s : string) : option string :=
  match s with
  | EmptyString => if bool_decide (prev = "_"%char) then None else Some EmptyString
  | String c s' =>
      if bool_decide (c = "_"%char)
      then (if is_digit prev then underscores c s' else None)
      else if bool_decide (prev = "_"%char) && negb (is_digit c) then None
      else String c <$> underscores c s'
  end.

Definition lower (c : ascii) : ascii :=
  let n := N_of_ascii c in
  if ((65 <=? n)%N && (n <=? 90)%N) then ascii_of_N (n + 32) else c.

Fixpoint lowercase (s : string) : string :=
  match s with
  | EmptyString => EmptyString
  | String c s' => String (lower c) (lowercase s')
  end.

(** The leading digits of [s]: their value after [acc], their number,
    and the rest of [s]. *)
Fixpoint take_digits (acc : Z) (s : string) : Z * Z * string :=
  match s with
  | EmptyString => (acc, 0, s)
  | String c s' =>
      match digit c with
      | Some d => let '(m, k, rest) := take_digits (10 * acc + d) s' in (m, k + 1, rest)
      | None => (acc, 0, s)
      end
  end.

(** The exponent part: empty, or [e] or [E], an optional sign and digits. *)
Definition exponent (s : string) : option Z :=
  match s with
  | EmptyString => Some 0
  | String c s' =>
      if bool_decide (lower c = "e"%char)
      then
        let '(neg, body) := signed s' in
        match take_digits 0 body with
        | (e, k, EmptyString) => if 0 <? k then Some (if neg then - e else e) else None
        | _ => None
        end
      else None
  end.

(** A decimal numeral: digits, an optional point and digits, an optional
    exponent; at least one digit before the exponent. *)
Definition decimal (neg : bool) (s : string) : option float :=
  let '(m1, k1, rest1) := take_digits 0 s in
  let '(m, k2, rest) :=
    match rest1 with
    | String "." s' => take_digits m1 s'
    | _ => (m1, 0, rest1)
    end in
  if 0 <? k1 + k2
  then
    e ← exponent rest;
    Some (if 0 <=? e - k2
          then float_of_ratio neg (m * 10 ^ (e - k2)) 1
          else float_of_ratio neg m (10 ^ (k2 - e)))
  else None.

Definition float (s : string) : option float :=
  s ← underscores "000"%char (strip_by is_cspace s);
  let '(neg, body) := signed s in
  let word := lowercase body in
  if bool_decide (word = "inf") || bool_decide (word = "infinity")
  then Some (if neg then neg_infinity else infinity)
  else if bool_decide (word = "nan") then Some nan
  else decimal neg body.

End Py.


#[local] Set Warnings "-inexact-float".

(** ** PredictiveMaintenanceETL *)

(** A cell of a raw record: its text, or [None]. *)
Abbreviation Cell := (option string).

Abbreviation RawRow := (gmap string Cell).
Abbreviation TypedRow := (gmap string value).

Definition newline : string := String "010"%char EmptyString.

(** *** [__init__] *)

Inductive requirement :=
  | string_type
  | positive_integer
  | positive_number
  | range (min max : Z).

#[global] Instance requirement_eq_dec : EqDecision requirement.
Proof. solve_decision. Defined.

(** The dict [self.field_requirements], in insertion order. *)
Definition field_requirements : list (string * requirement) :=
  [ ("machine_id", string_type);
    ("runtime_hours", positive_integer);
    ("vibration_level", positive_number);
    ("temperature", range 0 200);
    ("maintenance_threshold", range 0 100);
    ("max_operating_hours", positive_integer);
    ("scaling_factor", positive_number) ].

Definition required_fields : list string := field_requirements.*1.

(** *** [validate_data] *)

Definition missing_msg (field : string) : string :=
  "Missing required field: " +:+ field.

Definition invalid_msg (field what : string) : string :=
  "Invalid value for " +:+ field +:+ ": must be " +:+ what.

Definition between (min max : Z) : string :=
  "between " +:+ Py.str_of_int min +:+ " and " +:+ Py.str_of_int max.

(** [cell.strip()]: [None] has no [strip]. *)
Definition strip_cell (cell : Cell) : result string :=
  match cell with
  | Some text => Ret (Py.strip text)
  | None => Raise AttributeError
  end.

(** One turn of the loop over [self.required_fields]: [field] with its entry
    [requirements] of [self.field_requirements], on the pair of [row_errors]
    and [valid_record]. The turn raises when the cell of the field is
    [None]. *)
Definition validate_field (record : RawRow)
    (acc : list string * TypedRow) (entry : string * requirement)
    : result (list string * TypedRow) :=
  let '(row_errors, valid_record) := acc in
  let '(field, requirements) := entry in
  match record !! field with
  | None => Ret (row_errors ++ [missing_msg field], valid_record)
  | Some cell =>
      stripped ← strip_cell cell;
      if bool_decide (stripped = "")
      then Ret (row_errors ++ [missing_msg field], valid_record)
      else
        value ← strip_cell cell;
        match requirements with
        | string_type => Ret (row_errors, <[field := VStr value]> valid_record)
        | positive_integer =>
            match Py.int value with
            | Some num_value =>
                if num_value <=? 0
                then Ret (row_errors ++ [invalid_msg field "a positive integer"],
                          valid_record)
                else Ret (row_errors, <[field := VInt num_value]> valid_record)
            | None =>
                Ret (row_errors ++ [invalid_msg field "a positive integer"], valid_record)
            end
        | positive_number =>
            match Py.float value with
            | Some num_value =>
                if Py.float_le_int num_value 0
                then Ret (row_errors ++ [invalid_msg field "a positive number"],
                          valid_record)
                else Ret (row_errors, <[field := VFloat num_value]> valid_record)
            | None =>
                Ret (row_errors ++ [invalid_msg field "a positive number"], valid_record)
            end
        | range min max =>
            match Py.float value with
            | Some num_value =>
                if Py.float_lt_int num_value min || Py.float_gt_int num_value max
                then Ret (row_errors ++ [invalid_msg field (between min max)],
                          valid_record)
                else Ret (row_errors, <[field := VFloat num_value]> valid_record)
            | None => Ret (row_errors ++ [invalid_msg field "a number"], valid_record)
            end
        end
  end.

(** The body of the loop over the records, up to the test of [row_errors]. *)
Definition validate_record (record : RawRow) : result (list string * TypedRow) :=
  for_each (validate_field record) ([], ∅) field_requirements.

Definition row_line (i : nat) (row_errors : list string) : string :=
  "Row " +:+ pretty i +:+ ": " +:+ Py.join ", " row_errors.

(** The loop [for i, record in enumerate(records, 1)], on [errors] and
    [valid_records]. *)
Fixpoint validate_records (i : nat) (records : list RawRow)
    (errors : list string) (valid_records : list TypedRow)
    : result (list string * list TypedRow) :=
  match records with
  | [] => Ret (errors, valid_records)
  | record :: records' =>
      '(row_errors, valid_record) ← validate_record record;
      match row_errors with
      | _ :: _ =>
          validate_records (S i) records' (errors ++ [row_line i row_errors]) valid_records
      | [] =>
          validate_records (S i) records' errors (valid_records ++ [valid_record])
      end
  end.

Definition header_error (missing_fields : list string) : string :=
  "ERROR: Missing required field(s): " +:+ Py.join ", " missing_fields +:+ " in header.".

Definition validate_data (records : list RawRow)
    : result (bool * string * list TypedRow) :=
  match records with
  | [] => Raise IndexError
  | first_record :: _ =>
      let missing_fields :=
        filter (fun field => first_record !! field = None) required_fields in
      match missing_fields with
      | _ :: _ => Ret (false, header_error missing_fields, [])
      | [] =>
          '(errors, valid_records) ← validate_records 1 records [] [];
          match errors with
          | _ :: _ => Ret (false, Py.join newline errors, [])
          | [] => Ret (true, "", valid_records)
          end
      end
  end.

(** *** [calculate_metrics] *)

Record MetricsResult := {
  predicted_failure_risk : value;
  maintenance_urgency_ratio : float;
  operating_margin : float;
  composite_score : float;
  efficiency_ratio : float;
  status : string;
  recommendation : string
}.

(** [record[key]] *)
Definition getitem (record : TypedRow) (key : string) : result value :=
  match record !! key with
  | Some v => Ret v
  | None => Raise KeyError
  end.

Definition calculate_metrics (record : TypedRow) : result MetricsResult :=
  vibration_level ← getitem record "vibration_level";
  scaling_factor ← getitem record "scaling_factor";
  runtime_hours ← getitem record "runtime_hours";
  max_operating_hours ← getitem record "max_operating_hours";
  maintenance_threshold ← getitem record "maintenance_threshold";
  predicted_failure_risk ← Py.mul vibration_level scaling_factor;
  predicted_failure_risk ← Py.round predicted_failure_risk;
  maintenance_urgency_ratio ← Py.truediv predicted_failure_risk runtime_hours;
  let maintenance_urgency_ratio := (maintenance_urgency_ratio * 100)%float in
  let maintenance_urgency_ratio := Py.round2 maintenance_urgency_ratio in
  operating_margin ← Py.sub max_operating_hours runtime_hours;
  operating_margin ← Py.truediv operating_margin max_operating_hours;
  let operating_margin := (operating_margin * 100)%float in
  let operating_margin := Py.round2 operating_margin in
  let composite_score :=
    (operating_margin * 0.3 + (100 - maintenance_urgency_ratio) * 0.7)%float in
  let composite_score := Py.round2 composite_score in
  efficiency_ratio ← Py.truediv runtime_hours predicted_failure_risk;
  let efficiency_ratio := Py.round2 efficiency_ratio in
  let is_efficient :=
    ((0.90 <=? efficiency_ratio) && (efficiency_ratio <=? 9.90))%float in
  is_urgent ← Py.float_gt maintenance_urgency_ratio maintenance_threshold;
  let '(status, recommendation) :=
    if Py.float_ge_int composite_score 75 && is_efficient && negb is_urgent
    then ("Optimal", "No immediate maintenance required")
    else ("Requires Maintenance", "Schedule maintenance promptly") in
  Ret {| predicted_failure_risk := predicted_failure_risk;
         maintenance_urgency_ratio := maintenance_urgency_ratio;
         operating_margin := operating_margin;
         composite_score := composite_score;
         efficiency_ratio := efficiency_ratio;
         status := status;
         recommendation := recommendation |}.

(** *** [parse_csv_data], [generate_validation_report], [process_csv_data] *)

Definition parse_error (details : string) : string :=
  "ERROR: Invalid data format. Please provide data in CSV format. Details: " +:+ details.

Definition validation_failed (error_message : string) : string :=
  "Validation failed with the following errors:" +:+ newline +:+
  "```" +:+ newline +:+ error_message +:+ newline +:+ "```".

Definition generate_validation_report (is_valid : bool) (records : list TypedRow)
    (error_message : string) : string :=
  let report := "# Data Validation Report" +:+ newline in
  match records with
  | first_record :: _ =>
      let report := report +:+ "## Data Structure Check:" +:+ newline in
      let report :=
        report +:+ "- Number of machines: " +:+ pretty (length records) +:+ newline in
      let report :=
        report +:+ "- Number of fields per record: " +:+ pretty (length required_fields)
               +:+ newline +:+ newline in
      let report := report +:+ "## Required Fields Check:" +:+ newline in
      let report :=
        foldl (fun report field =>
                 let status :=
                   if bool_decide (is_Some (first_record !! field))
                   then "present" else "missing" in
                 report +:+ "- " +:+ field +:+ ": " +:+ status +:+ newline)
              report required_fields in
      let report := report +:+ newline +:+ "## Validation Summary:" +:+ newline in
      if is_valid
      then report +:+ "Data validation is successful! Would you like to proceed with analysis or provide another dataset?"
      else report +:+ validation_failed error_message
  | [] =>
      let report := report +:+ "## Validation Summary:" +:+ newline in
      report +:+ validation_failed error_message
  end.

Section Pipeline.

(** The table reader: [list(csv.DictReader(io.StringIO(text)))], either
    the records or the text [str(e)] of the exception it raised. *)
Variable DictReader : string -> string + list RawRow.

(** The renderer of the analysis report. *)
Variable generate_analysis_report : list TypedRow -> list MetricsResult -> string.

(** Returns the records, or ([inl]) the error text. *)
Definition parse_csv_data (csv_data : string) : string + list RawRow :=
  let csv_data := Py.strip csv_data in
  match DictReader csv_data with
  | inr [] => inl (parse_error "No data found in the CSV input")
  | inr records => inr records
  | inl details => inl (parse_error details)
  end.

Definition process_csv_data (csv_data : string) : result string :=
  match parse_csv_data csv_data with
  | inl records => Ret records
  | inr records =>
      '(is_valid, error_message, valid_records) ← validate_data records;
      let validation_report :=
        generate_validation_report is_valid valid_records error_message in
      if negb is_valid then Ret validation_report
      else
        calculations ← comprehension calculate_metrics valid_records;
        let analysis_report := generate_analysis_report valid_records calculations in
        Ret (validation_report +:+ newline +:+ newline +:+ analysis_report)
  end.

End Pipeline.

(** ** Definitions used by the statements *)

Local Open Scope float_scope.

(** *** The metrics calculator *)

(** The two classifications. *)
Definition optimal_status : string * string :=
  ("Optimal", "No immediate maintenance required").

Definition maintenance_status : string * string :=
  ("Requires Maintenance", "Schedule maintenance promptly").

(** The status and the recommendation, from the rounded scores. *)
Definition classify (composite_score efficiency_ratio : float) (is_urgent : bool)
    : string * string :=
  if Py.float_ge_int composite_score 75
     && ((0.90 <=? efficiency_ratio) && (efficiency_ratio <=? 9.90))
     && negb is_urgent
  then optimal_status else maintenance_status.

(** The steps of a call of [calculate_metrics] that returns. *)
Inductive metrics_steps (record : TypedRow) (m : MetricsResult) : Prop :=
  | MetricsSteps
      (vibration_level scaling_factor runtime_hours max_operating_hours : value)
      (maintenance_threshold product remaining_hours : value)
      (urgency_quotient margin_quotient efficiency_quotient : float)
      (is_urgent : bool)
      (step_vibration_level : record !! "vibration_level" = Some vibration_level)
      (step_scaling_factor : record !! "scaling_factor" = Some scaling_factor)
      (step_runtime_hours : record !! "runtime_hours" = Some runtime_hours)
      (step_max_operating_hours :
         record !! "max_operating_hours" = Some max_operating_hours)
      (step_maintenance_threshold :
         record !! "maintenance_threshold" = Some maintenance_threshold)
      (step_product : Py.mul vibration_level scaling_factor = Ret product)
      (step_risk : Py.round product = Ret (predicted_failure_risk m))
      (step_urgency_quotient :
         Py.truediv (predicted_failure_risk m) runtime_hours = Ret urgency_quotient)
      (step_urgency :
         maintenance_urgency_ratio m = Py.round2 (urgency_quotient * 100))
      (step_remaining_hours :
         Py.sub max_operating_hours runtime_hours = Ret remaining_hours)
      (step_margin_quotient :
         Py.truediv remaining_hours max_operating_hours = Ret margin_quotient)
      (step_margin : operating_margin m = Py.round2 (margin_quotient * 100))
      (step_composite :
         composite_score m =
         Py.round2 (operating_margin m * 0.3 + (100 - maintenance_urgency_ratio m) * 0.7))
      (step_efficiency_quotient :
         Py.truediv runtime_hours (predicted_failure_risk m) = Ret efficiency_quotient)
      (step_efficiency : efficiency_ratio m = Py.round2 efficiency_quotient)
      (step_is_urgent :
         Py.float_gt (maintenance_urgency_ratio m) maintenance_threshold = Ret is_urgent)
      (step_status :
         (status m, recommendation m) =
         classify (composite_score m) (efficiency_ratio m) is_urgent).

(** *** The schema validator *)

(** A row of a short line: one of the required fields holds [None]. *)
Definition short_row (record : RawRow) : Prop :=
  Exists (fun field => record !! field = Some None) required_fields.

(** What the turn of one field adds to [row_errors], and what it stores
    under the field in [valid_record]; nothing when the turn raises. *)
Definition field_errors (record : RawRow) (entry : string * requirement)
    : list string :=
  match validate_field record ([], ∅) entry with
  | Ret acc => acc.1
  | Raise _ => []
  end.

Definition field_value (record : RawRow) (entry : string * requirement)
    : option value :=
  match validate_field record ([], ∅) entry with
  | Ret acc => acc.2 !! entry.1
  | Raise _ => None
  end.

(** Every field-level message of a row, in the order of the schema. *)
Definition row_messages (record : RawRow) : list string :=
  flat_map (field_errors record) field_requirements.

(** The values the loop over the schema stores, from [valid_record]. *)
Definition store_fields (record : RawRow) (valid_record : TypedRow)
    (entries : list (string * requirement)) : TypedRow :=
  foldl (fun vr entry =>
           from_option (fun v => <[entry.1 := v]> vr) vr (field_value record entry))
        valid_record entries.

(** The record the loop over the schema fills for a row. *)
Definition typed_record (record : RawRow) : TypedRow :=
  store_fields record ∅ field_requirements.

(** The typed record of a raw record: under each required field the value
    the field converts to, and nothing else. *)
Definition typed_from (record : RawRow) (typed : TypedRow) : Prop :=
  (forall entry, entry ∈ field_requirements ->
     is_Some (typed !! entry.1) /\ typed !! entry.1 = field_value record entry) /\
  (forall key, key ∉ required_fields -> typed !! key = None).

(** The shape [validate_data] gives a record: a [str], two positive [int]s
    and four [float]s that passed their tests. *)
Record validated (typed : TypedRow) : Prop := {
  validated_machine_id : exists s, typed !! "machine_id" = Some (VStr s);
  validated_runtime_hours :
    exists n, typed !! "runtime_hours" = Some (VInt n) /\ (0 < n)%Z;
  validated_vibration_level :
    exists x, typed !! "vibration_level" = Some (VFloat x) /\ Py.float_le_int x 0 = false;
  validated_temperature :
    exists x, typed !! "temperature" = Some (VFloat x) /\
      Py.float_lt_int x 0 = false /\ Py.float_gt_int x 200 = false;
  validated_maintenance_threshold :
    exists x, typed !! "maintenance_threshold" = Some (VFloat x) /\
      Py.float_lt_int x 0 = false /\ Py.float_gt_int x 100 = false;
  validated_max_operating_hours :
    exists n, typed !! "max_operating_hours" = Some (VInt n) /\ (0 < n)%Z;
  validated_scaling_factor :
    exists x, typed !! "scaling_factor" = Some (VFloat x) /\ Py.float_le_int x 0 = false
}.

(** The first row has the seven required field names. *)
Definition header_complete (first_record : RawRow) : Prop :=
  forall field, field ∈ required_fields -> is_Some (first_record !! field).

(** The required field names the first row lacks, in schema order. *)
Definition missing_fields (first_record : RawRow) : list string :=
  filter (fun field => first_record !! field = None) required_fields.

(** [enumerate(l, start)] *)
Fixpoint enumerate {A} (start : nat) (l : list A) : list (nat * A) :=
  match l with
  | [] => []
  | a :: l' => (start, a) :: enumerate (S start) l'
  end.

(** The failing rows, each with its index and all its messages, in input
    order; and the lines that report them. *)
Definition failing_rows (start : nat) (records : list RawRow)
    : list (nat * list string) :=
  filter (fun row => row.2 <> [])
         (prod_map id row_messages <$> enumerate start records).

Definition report_lines (records : list RawRow) : list string :=
  (fun row => row_line row.1 row.2) <$> failing_rows 1 records.

(** Every character of [s] passes [p]. *)
Fixpoint all_chars (p : ascii -> bool) (s : string) : bool :=
  match s with
  | EmptyString => true
  | String c s' => p c && all_chars p s'
  end.

(** The text of an integer literal: an optional sign, then at least one
    character, digits and underscores only; so no point, no exponent and no
    letter. *)
Definition integer_text (s : string) : Prop :=
  (Py.signed s).2 <> "" /\
  all_chars (fun c => Py.is_digit c || bool_decide (c = "_"%char)) (Py.signed s).2 = true.

(** Unfolds the turn of one field and splits on every test it makes. *)
Ltac field_cases record field requirements :=
  unfold field_errors, field_value, validate_field; cbn [fst snd];
  destruct (record !! field) as [[?text|]|];
    cbn [strip_cell mbind result_bind]; [case_bool_decide | |];
  [ | destruct requirements as [| | |?min ?max];
      [ | destruct (Py.int _) as [?n|]; [destruct (_ <=? 0)%Z |]
        | destruct (Py.float _) as [?x|]; [destruct (Py.float_le_int _ 0) |]
        | destruct (Py.float _) as [?x|]; [destruct (_ || _) |] ]
    | | ];
  cbn [fst snd from_option];
  rewrite ?lookup_insert_eq, ?lookup_empty, ?app_nil_r;
  cbn [fst snd from_option].

(** Unfolds the turn of a field whose cell holds a text that is not blank. *)
Ltac field_text Hfield :=
  unfold validate_field; rewrite Hfield; cbn [strip_cell mbind result_bind];
  rewrite bool_decide_false by done.

(** Closes an equation by evaluating its two sides. *)
Ltac by_compute :=
  lazymatch goal with
  | |- ?lhs = ?rhs => vm_cast_no_check (@eq_refl _ rhs)
  end.

(** Splits a goal into its conjuncts. *)
Ltac conjuncts := repeat match goal with |- _ /\ _ => split end.

(** *** Sample inputs *)

(** A row of the table reader, from its cells. *)
Definition raw (fields : list (string * string)) : RawRow :=
  Some <$> list_to_map fields.

(** The first sample machine of [main], as the table reader gives it. *)
Definition sample_row : RawRow :=
  raw [ ("machine_id", "M501"); ("runtime_hours", "50");
        ("vibration_level", "2"); ("temperature", "80");
        ("maintenance_threshold", "30"); ("max_operating_hours", "200");
        ("scaling_factor", "5") ].

(** The record of the first sample machine, as [validate_data] types it,
    with [maintenance_threshold] left open. *)
Definition p4_record (maintenance_threshold : float) : TypedRow :=
  list_to_map
    [ ("machine_id", VStr "M501"); ("runtime_hours", VInt 50);
      ("vibration_level", VFloat 2); ("temperature", VFloat 80);
      ("maintenance_threshold", VFloat maintenance_threshold);
      ("max_operating_hours", VInt 200); ("scaling_factor", VFloat 5) ].

(** A row that passes validation: every numeric field is positive. *)
Definition low_vibration_row : RawRow :=
  raw [ ("machine_id", "M777"); ("runtime_hours", "50");
        ("vibration_level", "0.001"); ("temperature", "80");
        ("maintenance_threshold", "30"); ("max_operating_hours", "200");
        ("scaling_factor", "1") ].

(** Its record, as [validate_data] types it. *)
Definition low_vibration_record : TypedRow :=
  list_to_map
    [ ("machine_id", VStr "M777"); ("runtime_hours", VInt 50);
      ("vibration_level", VFloat 0.001); ("temperature", VFloat 80);
      ("maintenance_threshold", VFloat 30);
      ("max_operating_hours", VInt 200); ("scaling_factor", VFloat 1) ].

(** A row with a non-numeric [runtime_hours] and a [temperature] out of
    range; a row with an empty [machine_id]. *)
Definition two_errors_row : RawRow :=
  <["runtime_hours" := Some "abc"]> (<["temperature" := Some "200.01"]> sample_row).

Definition blank_id_row : RawRow := <["machine_id" := Some "  "]> sample_row.

(** A row whose two range fields hold a NaN. *)
Definition nan_row : RawRow :=
  <["temperature" := Some "nan"]> (<["maintenance_threshold" := Some "NaN"]> sample_row).

(** Its record, as [validate_data] types it. *)
Definition nan_record : TypedRow :=
  <["temperature" := VFloat nan]> (<["maintenance_threshold" := VFloat nan]> (p4_record 30)).

(** The row of the short line "M501,50,2,80,30,200": the reader stores
    [None] under the field the line leaves out. *)
Definition short_line_row : RawRow := <["scaling_factor" := None]> sample_row.

(** Seven rows, of which the rows 2, 4 and 7 fail. *)
Definition p2_records : list RawRow :=
  [ sample_row; two_errors_row; sample_row; blank_id_row;
    sample_row; sample_row; two_errors_row ].

(** A first row without [scaling_factor], before a row with bad values. *)
Definition p3_records : list RawRow :=
  [ delete "scaling_factor" sample_row; delete "scaling_factor" two_errors_row ].

(** A record whose product [vibration_level * scaling_factor] changes when
    it is rounded. *)
Definition fine_record : TypedRow :=
  list_to_map
    [ ("machine_id", VStr "M1"); ("runtime_hours", VInt 1);
      ("vibration_level", VFloat 0.333); ("temperature", VFloat 80);
      ("maintenance_threshold", VFloat 30);
      ("max_operating_hours", VInt 200); ("scaling_factor", VFloat 1) ].

(** A row whose [runtime_hours] is too large for a [float], and its
    record. *)
Definition long_running_row : RawRow :=
  <["runtime_hours" := Some ("1" +:+ Py.repeat_str 400 "0")]> sample_row.

Definition long_running_record : TypedRow :=
  <["runtime_hours" := VInt (10 ^ 400)]> (p4_record 30).

(** A reader that finds no record, and a renderer. *)
Definition empty_reader (text : string) : string + list RawRow := inr [].

Definition no_analysis (records : list TypedRow) (calculations : list MetricsResult)
    : string := "".

(** *** Definitions for the further properties *)

(** Two rows have the same required fields, with the same cells once
    their text is stripped. *)
Definition same_required (r1 r2 : RawRow) : Prop :=
  forall field, field ∈ required_fields ->
    fmap Py.strip <$> r1 !! field = fmap Py.strip <$> r2 !! field.

(** A value that can be a divisor: a number other than zero. *)
Definition nonzero (v : value) : Prop :=
  match v with
  | VInt n => n <> 0%Z
  | VFloat x => (x =? 0) = false
  | VStr _ => False
  end.

(** The five fields [calculate_metrics] reads. *)
Definition metric_inputs : list string :=
  [ "vibration_level"; "scaling_factor"; "runtime_hours"; "max_operating_hours";
    "maintenance_threshold" ].

(** The report of a failed validation, and the report of a successful one
    of [n] machines. *)
Definition failure_report (error_message : string) : string :=
  "# Data Validation Report" +:+ newline +:+
  "## Validation Summary:" +:+ newline +:+
  "Validation failed with the following errors:" +:+ newline +:+
  "```" +:+ newline +:+ error_message +:+ newline +:+ "```".

Definition success_report (n : nat) : string :=
  "# Data Validation Report" +:+ newline +:+
  "## Data Structure Check:" +:+ newline +:+
  "- Number of machines: " +:+ pretty n +:+ newline +:+
  "- Number of fields per record: 7" +:+ newline +:+ newline +:+
  "## Required Fields Check:" +:+ newline +:+
  "- machine_id: present" +:+ newline +:+
  "- runtime_hours: present" +:+ newline +:+
  "- vibration_level: present" +:+ newline +:+
  "- temperature: present" +:+ newline +:+
  "- maintenance_threshold: present" +:+ newline +:+
  "- max_operating_hours: present" +:+ newline +:+
  "- scaling_factor: present" +:+ newline +:+ newline +:+
  "## Validation Summary:" +:+ newline +:+
  "Data validation is successful! Would you like to proceed with analysis or provide another dataset?".

(** A reader that finds the rows it is given, whatever the text. *)
Definition rows_reader (rows : list RawRow) (text : string) : string + list RawRow :=
  inr rows.

(** A reader that finds the rows in one text only. *)
Definition exact_reader (expected : string) (rows : list RawRow) (text : string)
    : string + list RawRow :=
  if bool_decide (text = expected) then inr rows else inl "unreadable".

(** [lstrip_by] on the list of the characters. *)
Fixpoint lstrip_list (sp : ascii -> bool) (l : list ascii) : list ascii :=
  match l with
  | c :: l' => if sp c then lstrip_list sp l' else l
  | [] => []
  end.

(** The first and the last character of a string. *)
Definition first_char (s : string) : option ascii := head (list_ascii_of_string s).

Definition last_char (s : string) : option ascii := last (list_ascii_of_string s).

(** Every message a field of the schema can get: the missing message, and
    the messages of its kind. *)
Definition messages_of (entry : string * requirement) : list string :=
  missing_msg entry.1 ::
  match entry.2 with
  | string_type => []
  | positive_integer => [invalid_msg entry.1 "a positive integer"]
  | positive_number => [invalid_msg entry.1 "a positive number"]
  | range min max =>
      [invalid_msg entry.1 (between min max); invalid_msg entry.1 "a number"]
  end.

Definition possible_messages : list string := flat_map messages_of field_requirements.

(** The first sample row with white space around two cells and one more
    column. *)
Definition padded_row : RawRow :=
  <["operator" := Some "Kim"]>
    (<["runtime_hours" := Some " 50 "]> (<["machine_id" := Some "M501  "]> sample_row)).

(** * Properties *)

(** ** The built-ins on known values *)

Example strip_examples :
  Py.strip "  a b  " = "a b" /\ Py.strip "" = "" /\ Py.strip "   " = "" /\
  Py.strip (String "009"%char (String "028"%char "x")) = "x".
Proof. conjuncts; by_compute. Qed.

Example int_examples :
  Py.int " +1_000 " = Some 1000%Z /\ Py.int "007" = Some 7%Z /\
  Py.int "-5" = Some (-5)%Z /\ Py.int "0_0" = Some 0%Z /\
  Forall (fun text => Py.int text = None)
    ["1__0"; "1_"; "_1"; "+"; ""; "1.0"; "+ 1"; "--5"; "1e3"; "0x10"].
Proof. conjuncts; try by_compute. repeat constructor; by_compute. Qed.

Example float_examples :
  Py.float "0.3" = Some 0.3 /\ Py.float "0.1" = Some 0.1 /\
  Py.float "1_0.5" = Some 10.5 /\ Py.float "1e5" = Some 100000 /\
  Py.float "1E-3" = Some 0.001 /\ Py.float ".5" = Some 0.5 /\
  Py.float "5." = Some 5 /\ Py.float "1e1_0" = Some 1e10 /\
  Py.float "+.5e+1_0" = Some 5e9 /\ Py.float " 12 " = Some 12 /\
  Py.float "-0" = Some (-0) /\ Py.float "200.01" = Some 200.01 /\
  Py.float "1e999" = Some infinity /\ Py.float "1e-999" = Some 0 /\
  Py.float "5e-324" = Some 5e-324 /\
  Py.float "1.7976931348623157e308" = Some 1.7976931348623157e308 /\
  Py.float "9007199254740993" = Some 9007199254740992 /\
  Py.float "9007199254740995" = Some 9007199254740996 /\
  Py.float "nan" = Some nan /\ Py.float "-NaN" = Some nan /\
  Py.float "inf" = Some infinity /\ Py.float "+Infinity" = Some infinity /\
  Py.float "-INF" = Some neg_infinity /\
  Forall (fun text => Py.float text = None)
    ["infinit"; "."; "1e"; "e5"; "1_e5"; "1e_5"; "0x10"; "i_nf"; "1._5"; "1_.5";
     "--1"; "1e+"; "1 .5"; ""; "abc"].
Proof. conjuncts; try by_compute. repeat constructor; by_compute. Qed.

Example float_of_ratio_examples :
  Py.float_of_ratio false 1 3 = 1 / 3 /\
  Py.float_of_ratio true 2 3 = - (2 / 3) /\
  Py.float_of_ratio false 1 10 = 0.1 /\
  Py.float_of_ratio false (2 ^ 53 + 1) 1 = 9007199254740992 /\
  Py.float_of_ratio false (10 ^ 400) 1 = infinity /\
  Py.float_of_ratio false 1 (10 ^ 400) = 0 /\
  Py.float_of_ratio true 0 7 = -0.
Proof. conjuncts; by_compute. Qed.

Example round2_examples :
  Py.round2 0.125 = 0.12 /\ Py.round2 0.375 = 0.38 /\ Py.round2 2.675 = 2.67 /\
  Py.round2 0.005 = 0.01 /\ Py.round2 0.015 = 0.01 /\ Py.round2 1.005 = 1 /\
  Py.round2 0.001 = 0 /\ Py.round2 (-0.001) = -0 /\ Py.round2 5e-324 = 0 /\
  Py.round2 1e308 = 1e308 /\ Py.round2 123456789012345.67 = 123456789012345.67 /\
  Py.round2 (10 / 3) = 3.33 /\ Py.round2 (200 / 3) = 66.67 /\
  Py.round2 78.5 = 78.5 /\ Py.round2 nan = nan /\ Py.round2 infinity = infinity.
Proof. conjuncts; by_compute. Qed.

Example compare_float_int_examples :
  Py.compare_float_int 0.5 0 = Some Gt /\ Py.compare_float_int 200 200 = Some Eq /\
  Py.compare_float_int 200.01 200 = Some Gt /\ Py.compare_float_int (-0) 0 = Some Eq /\
  Py.compare_float_int 9007199254740992 9007199254740993 = Some Lt /\
  Py.compare_float_int neg_infinity 0 = Some Lt /\ Py.compare_float_int nan 0 = None.
Proof. conjuncts; by_compute. Qed.

(** ** Outcomes *)

Lemma bind_Ret {A B} (k : A -> result B) (r : result A) (b : B) :
  r ≫= k = Ret b <-> exists a, r = Ret a /\ k a = Ret b.
Proof.
  destruct r as [a|e]; simpl; split.
  - intros H. exists a. split; [reflexivity | exact H].
  - intros (a' & Ha & H). injection Ha as ->. exact H.
  - discriminate.
  - intros (a' & Ha & _). discriminate.
Qed.

Lemma getitem_Ret (record : TypedRow) key v :
  getitem record key = Ret v <-> record !! key = Some v.
Proof.
  unfold getitem. destruct (record !! key); split; intros H; congruence.
Qed.

(** ** The metrics calculator *)

Lemma calculate_metrics_steps (record : TypedRow) (m : MetricsResult) :
  calculate_metrics record = Ret m -> metrics_steps record m.
Proof.
  intros H. unfold calculate_metrics in H.
  apply bind_Ret in H as (vibration_level & Hvib%getitem_Ret & H).
  apply bind_Ret in H as (scaling_factor & Hscal%getitem_Ret & H).
  apply bind_Ret in H as (runtime_hours & Hrun%getitem_Ret & H).
  apply bind_Ret in H as (max_operating_hours & Hmax%getitem_Ret & H).
  apply bind_Ret in H as (maintenance_threshold & Hthr%getitem_Ret & H).
  apply bind_Ret in H as (product & Hprod & H).
  apply bind_Ret in H as (risk & Hrisk & H).
  apply bind_Ret in H as (urgency_quotient & Huq & H).
  apply bind_Ret in H as (remaining_hours & Hrem & H).
  apply bind_Ret in H as (margin_quotient & Hmq & H).
  apply bind_Ret in H as (efficiency_quotient & Heq & H).
  apply bind_Ret in H as (is_urgent & Hurg & H).
  match type of H with
  | (let '(_, _) := if ?c then _ else _ in _) = _ =>
      assert (classify (Py.round2 (Py.round2 (margin_quotient * 100) * 0.3
                         + (100 - Py.round2 (urgency_quotient * 100)) * 0.7))
                       (Py.round2 efficiency_quotient) is_urgent
              = if c then optimal_status else maintenance_status) as Hclass
        by reflexivity;
      destruct c
  end; simpl in H; injection H as <-;
    (econstructor; simpl; try eassumption; try reflexivity; rewrite Hclass; reflexivity).
Qed.

(** C10. [calculate_metrics] reads five fields only: two records that agree
    on [runtime_hours], [vibration_level], [maintenance_threshold],
    [max_operating_hours] and [scaling_factor] get the same outcome, whatever
    their [machine_id] and [temperature] are. *)
Theorem calculate_metrics_independent (r1 r2 : TypedRow) :
  r1 !! "runtime_hours" = r2 !! "runtime_hours" ->
  r1 !! "vibration_level" = r2 !! "vibration_level" ->
  r1 !! "maintenance_threshold" = r2 !! "maintenance_threshold" ->
  r1 !! "max_operating_hours" = r2 !! "max_operating_hours" ->
  r1 !! "scaling_factor" = r2 !! "scaling_factor" ->
  calculate_metrics r1 = calculate_metrics r2.
Proof.
  intros Hrun Hvib Hthr Hmax Hscal.
  unfold calculate_metrics, getitem.
  rewrite Hrun, Hvib, Hthr, Hmax, Hscal. reflexivity.
Qed.

Lemma calculate_metrics_independent_witness :
  calculate_metrics (<["machine_id" := VStr "X9"]> (<["temperature" := VFloat 199.5]> (p4_record 30)))
  = calculate_metrics (p4_record 30).
Proof.
  apply calculate_metrics_independent; vm_compute; reflexivity.
Defined.

(** C3. Whenever [calculate_metrics] returns, the status is "Optimal" with
    "No immediate maintenance required" exactly when the rounded composite
    score is at least 75, the rounded efficiency ratio is within
    [0.90, 9.90] and the rounded urgency ratio is not greater than the
    threshold; in every other case it is "Requires Maintenance" with
    "Schedule maintenance promptly". With the sample record and threshold 10
    the status is "Requires Maintenance", with the scores of threshold 30. *)
Theorem calculate_metrics_classification :
  (forall (record : TypedRow) (m : MetricsResult),
     calculate_metrics record = Ret m ->
     exists maintenance_threshold is_urgent,
       record !! "maintenance_threshold" = Some maintenance_threshold /\
       Py.float_gt (maintenance_urgency_ratio m) maintenance_threshold = Ret is_urgent /\
       let optimal :=
         Py.float_ge_int (composite_score m) 75 = true /\
         (0.90 <=? efficiency_ratio m) = true /\
         (efficiency_ratio m <=? 9.90) = true /\
         is_urgent = false in
       ((status m, recommendation m) = optimal_status <-> optimal) /\
       (~ optimal -> (status m, recommendation m) = maintenance_status)) /\
  (exists m30 m10,
     calculate_metrics (p4_record 30) = Ret m30 /\
     calculate_metrics (p4_record 10) = Ret m10 /\
     status m30 = "Optimal" /\
     status m10 = "Requires Maintenance" /\
     composite_score m10 = composite_score m30 /\
     efficiency_ratio m10 = efficiency_ratio m30 /\
     maintenance_urgency_ratio m10 = maintenance_urgency_ratio m30).
Proof.
  split.
  - intros record m [? ? ? ? threshold ? ? ? ? ? urgent
                     _ _ _ _ Hthr _ _ _ _ _ _ _ _ _ _ Hurgent Hstatus]%calculate_metrics_steps.
    exists threshold, urgent. split; [exact Hthr |]. split; [exact Hurgent |].
    rewrite Hstatus. unfold classify.
    destruct (Py.float_ge_int _ 75), (0.90 <=? _), (_ <=? 9.90), urgent; simpl;
      (split; [split |]); try tauto; try discriminate;
      intros; repeat split; try reflexivity;
      match goal with H : _ /\ _ |- _ => decompose [and] H; discriminate end.
  - eexists _, _. vm_compute. repeat split; reflexivity.
Qed.

Lemma calculate_metrics_classification_witness :
  exists m maintenance_threshold is_urgent,
    calculate_metrics (p4_record 10) = Ret m /\
    p4_record 10 !! "maintenance_threshold" = Some maintenance_threshold /\
    Py.float_gt (maintenance_urgency_ratio m) maintenance_threshold = Ret is_urgent /\
    is_urgent = true /\
    (status m, recommendation m) = maintenance_status.
Proof.
  destruct (calculate_metrics (p4_record 10)) as [m|e] eqn:Hm; [| vm_compute in Hm; discriminate].
  destruct (proj1 calculate_metrics_classification _ _ Hm)
    as (maintenance_threshold & is_urgent & Hthr & Hurgent & _ & Hother).
  exists m, maintenance_threshold, is_urgent.
  split; [reflexivity |]. split; [exact Hthr |]. split; [exact Hurgent |].
  assert (is_urgent = true) as ->.
  { vm_compute in Hm. injection Hm as <-.
    vm_compute in Hthr. injection Hthr as <-.
    vm_compute in Hurgent. injection Hurgent as <-. reflexivity. }
  split; [reflexivity |].
  apply Hother. intros (_ & _ & _ & Hfalse). discriminate.
Defined.

(** C2. Whenever [calculate_metrics] returns, its five metrics are, in this
    order, the risk [round(vibration_level * scaling_factor, 2)], the urgency
    ratio from the rounded risk, the operating margin, the composite score
    from the rounded margin and the rounded urgency ratio, and the efficiency
    ratio from the rounded risk, each rounded to two decimals. The sample
    record gives 10.0, 20.0, 75.0, 78.5, 5.0 and "Optimal"; and on
    [fine_record] the efficiency ratio 3.03 comes from the rounded risk 0.33,
    where the unrounded product would give 3.0. *)
Theorem calculate_metrics_rounding_order :
  (forall (record : TypedRow) (m : MetricsResult),
     calculate_metrics record = Ret m ->
     exists vibration_level scaling_factor runtime_hours max_operating_hours
            product urgency_quotient remaining_hours margin_quotient
            efficiency_quotient,
       record !! "vibration_level" = Some vibration_level /\
       record !! "scaling_factor" = Some scaling_factor /\
       record !! "runtime_hours" = Some runtime_hours /\
       record !! "max_operating_hours" = Some max_operating_hours /\
       Py.mul vibration_level scaling_factor = Ret product /\
       Py.round product = Ret (predicted_failure_risk m) /\
       Py.truediv (predicted_failure_risk m) runtime_hours = Ret urgency_quotient /\
       maintenance_urgency_ratio m = Py.round2 (urgency_quotient * 100) /\
       Py.sub max_operating_hours runtime_hours = Ret remaining_hours /\
       Py.truediv remaining_hours max_operating_hours = Ret margin_quotient /\
       operating_margin m = Py.round2 (margin_quotient * 100) /\
       composite_score m =
         Py.round2 (operating_margin m * 0.3 + (100 - maintenance_urgency_ratio m) * 0.7) /\
       Py.truediv runtime_hours (predicted_failure_risk m) = Ret efficiency_quotient /\
       efficiency_ratio m = Py.round2 efficiency_quotient) /\
  calculate_metrics (p4_record 30) =
    Ret {| predicted_failure_risk := VFloat 10;
           maintenance_urgency_ratio := 20;
           operating_margin := 75;
           composite_score := 78.5;
           efficiency_ratio := 5;
           status := "Optimal";
           recommendation := "No immediate maintenance required" |} /\
  (exists m,
     calculate_metrics fine_record = Ret m /\
     predicted_failure_risk m = VFloat 0.33 /\
     efficiency_ratio m = 3.03 /\
     Py.round2 (1 / (0.333 * 1)) = 3).
Proof.
  split; [| split].
  - intros record m
      [vibration_level scaling_factor runtime_hours max_operating_hours
       threshold product remaining_hours urgency_quotient margin_quotient
       efficiency_quotient urgent
       Hvib Hscal Hrun Hmax _ Hprod Hrisk Huq Hurg Hrem Hmq Hmargin Hcomp Heq Heff _ _
      ]%calculate_metrics_steps.
    exists vibration_level, scaling_factor, runtime_hours, max_operating_hours,
      product, urgency_quotient, remaining_hours, margin_quotient, efficiency_quotient.
    repeat split; assumption.
  - vm_compute. reflexivity.
  - eexists. vm_compute. repeat split; reflexivity.
Qed.

Lemma calculate_metrics_rounding_order_witness :
  exists m product urgency_quotient,
    calculate_metrics (p4_record 30) = Ret m /\
    Py.mul (VFloat 2) (VFloat 5) = Ret product /\
    Py.round product = Ret (predicted_failure_risk m) /\
    Py.truediv (predicted_failure_risk m) (VInt 50) = Ret urgency_quotient /\
    maintenance_urgency_ratio m = Py.round2 (urgency_quotient * 100).
Proof.
  destruct (calculate_metrics (p4_record 30)) as [m|e] eqn:Hm; [| vm_compute in Hm; discriminate].
  destruct (proj1 calculate_metrics_rounding_order _ _ Hm)
    as (vibration_level & scaling_factor & runtime_hours & max_operating_hours
        & product & urgency_quotient & remaining_hours & margin_quotient
        & efficiency_quotient
        & Hvib & Hscal & Hrun & _ & Hprod & Hrisk & Huq & Hurg & _).
  vm_compute in Hvib. injection Hvib as <-.
  vm_compute in Hscal. injection Hscal as <-.
  vm_compute in Hrun. injection Hrun as <-.
  exists m, product, urgency_quotient. repeat split; assumption.
Defined.

(** ** The schema validator: one field *)

(** The turn of a field whose cell is [None] raises. *)
Lemma validate_field_None (record : RawRow) acc entry :
  record !! entry.1 = Some None -> validate_field record acc entry = Raise AttributeError.
Proof.
  destruct acc as [errs vr], entry as [field requirements]. cbn [fst].
  intros Hcell. unfold validate_field. by rewrite Hcell.
Qed.

(** Every other turn returns. *)
Lemma validate_field_acc (record : RawRow) errs (vr : TypedRow) entry :
  record !! entry.1 <> Some None ->
  validate_field record (errs, vr) entry =
  Ret (errs ++ field_errors record entry,
       from_option (fun v => <[entry.1 := v]> vr) vr (field_value record entry)).
Proof.
  destruct entry as [field requirements]. cbn [fst]. intros Hcell.
  field_cases record field requirements; done.
Qed.

(** A field either adds one message and stores nothing, or adds no message
    and stores a value. *)
Lemma field_outcome (record : RawRow) entry :
  record !! entry.1 <> Some None ->
  (exists msg, field_errors record entry = [msg] /\ field_value record entry = None) \/
  (exists v, field_errors record entry = [] /\ field_value record entry = Some v).
Proof.
  destruct entry as [field requirements]. cbn [fst]. intros Hcell.
  field_cases record field requirements; eauto; done.
Qed.

Lemma digits_text (s : string) acc after_digit n :
  Py.digits acc after_digit s = Some n ->
  all_chars (fun c => Py.is_digit c || bool_decide (c = "_"%char)) s = true.
Proof.
  revert acc after_digit. induction s as [|c s IH]; intros acc after_digit H; [done |].
  cbn [Py.digits] in H. cbn [all_chars]. unfold Py.is_digit.
  destruct (Py.digit c) as [d|]; cbn [orb andb].
  - by eapply IH.
  - destruct (bool_decide (c = "_"%char)), after_digit;
      cbn [andb] in H; try discriminate. by eapply IH.
Qed.

Lemma int_text (s : string) n :
  Py.int s = Some n -> integer_text (Py.strip_by Py.is_cspace s).
Proof.
  unfold Py.int, integer_text.
  destruct (Py.signed _) as [neg body]. cbn [snd].
  destruct (Py.digits 0 false body) as [m|] eqn:Hdigits; [| done].
  intros _. split; [by destruct body | by eapply digits_text].
Qed.

(** C8. For a field that must be a positive integer and is not missing, the
    stripped text is accepted, and stored as that [int], exactly when [int]
    parses it to a value greater than 0; in every other case the one message
    "Invalid value for {field}: must be a positive integer" is appended and
    nothing is stored. A text that [int] parses is an optional sign followed
    by digits and underscores only. The positive integer fields are
    [runtime_hours] and [max_operating_hours], and "abc" is rejected. *)
Theorem validate_positive_integer :
  (forall (record : RawRow) (field text : string) row_errors (valid_record : TypedRow),
     record !! field = Some (Some text) ->
     Py.strip text <> "" ->
     (forall n,
        Py.int (Py.strip text) = Some n -> 0 < n ->
        validate_field record (row_errors, valid_record) (field, positive_integer)
        = Ret (row_errors, <[field := VInt n]> valid_record)) /\
     (~ (exists n, Py.int (Py.strip text) = Some n /\ 0 < n) ->
        validate_field record (row_errors, valid_record) (field, positive_integer)
        = Ret (row_errors
                 ++ ["Invalid value for " +:+ field +:+ ": must be a positive integer"],
               valid_record)) /\
     (forall n,
        Py.int (Py.strip text) = Some n ->
        integer_text (Py.strip_by Py.is_cspace (Py.strip text)))) /\
  filter (fun entry => entry.2 = positive_integer) field_requirements
    = [("runtime_hours", positive_integer); ("max_operating_hours", positive_integer)] /\
  field_errors (<["runtime_hours" := Some "abc"]> sample_row)
    ("runtime_hours", positive_integer)
    = ["Invalid value for runtime_hours: must be a positive integer"] /\
  Forall (fun text => Py.int text = None) ["abc"; "1.5"; "1e3"; "12a"; "0x1F"] /\
  Py.int "0" = Some 0%Z /\ Py.int "-3" = Some (-3)%Z /\ Py.int "50" = Some 50%Z.
Proof.
  split; [| split; [reflexivity | split; [vm_compute; reflexivity |]]].
  - intros record field text row_errors valid_record Hfield Htext.
    field_text Hfield.
    split; [| split].
    + intros n -> Hpos. by rewrite (proj2 (Z.leb_gt n 0) Hpos).
    + intros Hnone. destruct (Py.int _) as [n|]; [| done].
      destruct (n <=? 0)%Z eqn:Hn; [done |].
      destruct Hnone. exists n. split; [done |]. by apply Z.leb_gt.
    + intros n. apply int_text.
  - split; [repeat constructor | repeat split; reflexivity].
Qed.

Lemma validate_positive_integer_witness :
  validate_field sample_row ([], ∅) ("runtime_hours", positive_integer)
  = Ret ([], <["runtime_hours" := VInt 50]> ∅).
Proof.
  apply (proj1 validate_positive_integer sample_row "runtime_hours" "50").
  - reflexivity.
  - vm_compute. discriminate.
  - reflexivity.
  - reflexivity.
Defined.

(** The text "1_000" holds a character that is no digit, and is accepted
    as the positive integer 1000. *)
Lemma validate_positive_integer_underscore :
  all_chars Py.is_digit "1_000" = false /\
  validate_field (<["runtime_hours" := Some "1_000"]> sample_row) ([], ∅)
    ("runtime_hours", positive_integer)
  = Ret ([], <["runtime_hours" := VInt 1000]> ∅).
Proof. conjuncts; by_compute. Qed.

Lemma compare_float_int_Some (x : float) (n : Z) :
  is_nan x = false -> exists c, Py.compare_float_int x n = Some c.
Proof.
  intros Hnan. unfold Py.compare_float_int, Prim2SF. rewrite Hnan.
  destruct (is_zero x); [by eexists |].
  destruct (is_infinity x); [by eexists |].
  destruct (Z.frexp x) as [r e]. destruct (shr_fexp _ _ _ _ _) as [shr e'].
  destruct (shr_m shr); by eexists.
Qed.

(** A parsed value that is not a NaN is rejected by a range exactly when it
    is outside the closed interval. *)
Lemma range_test (x : float) (min max : Z) :
  is_nan x = false ->
  Py.float_lt_int x min || Py.float_gt_int x max
  = negb (Py.float_ge_int x min && Py.float_le_int x max).
Proof.
  intros Hnan.
  unfold Py.float_lt_int, Py.float_gt_int, Py.float_ge_int, Py.float_le_int.
  destruct (compare_float_int_Some x min Hnan) as [c1 ->].
  destruct (compare_float_int_Some x max Hnan) as [c2 ->].
  by destruct c1, c2.
Qed.

(** The range fields on values that are numbers: accepted exactly within
    the closed interval, both ends included, with a message for each way of
    failing. *)
Lemma validate_range (record : RawRow) (field text : string) (min max : Z)
    row_errors (valid_record : TypedRow) :
  record !! field = Some (Some text) ->
  Py.strip text <> "" ->
  match Py.float (Py.strip text) with
  | None =>
      validate_field record (row_errors, valid_record) (field, range min max)
      = Ret (row_errors ++ ["Invalid value for " +:+ field +:+ ": must be a number"],
             valid_record)
  | Some x =>
      is_nan x = false ->
      validate_field record (row_errors, valid_record) (field, range min max)
      = if Py.float_ge_int x min && Py.float_le_int x max
        then Ret (row_errors, <[field := VFloat x]> valid_record)
        else Ret (row_errors
                    ++ ["Invalid value for " +:+ field +:+ ": must be between "
                          +:+ pretty min +:+ " and " +:+ pretty max],
                  valid_record)
  end.
Proof.
  intros Hfield Htext. field_text Hfield.
  destruct (Py.float _) as [x|]; [| done].
  intros Hnan. rewrite range_test by done.
  by destruct (_ && _).
Qed.

Lemma validate_range_boundaries :
  field_errors (<["temperature" := Some "0"]> sample_row) ("temperature", range 0 200) = [] /\
  field_errors (<["temperature" := Some "200"]> sample_row) ("temperature", range 0 200) = [] /\
  field_errors (<["temperature" := Some "200.01"]> sample_row) ("temperature", range 0 200)
    = ["Invalid value for temperature: must be between 0 and 200"] /\
  field_errors (<["temperature" := Some "-0.5"]> sample_row) ("temperature", range 0 200)
    = ["Invalid value for temperature: must be between 0 and 200"] /\
  field_errors (<["temperature" := Some "warm"]> sample_row) ("temperature", range 0 200)
    = ["Invalid value for temperature: must be a number"] /\
  field_errors (<["temperature" := Some "inf"]> sample_row) ("temperature", range 0 200)
    = ["Invalid value for temperature: must be between 0 and 200"] /\
  field_errors (<["maintenance_threshold" := Some "100"]> sample_row)
    ("maintenance_threshold", range 0 100) = [] /\
  field_errors (<["maintenance_threshold" := Some "100.5"]> sample_row)
    ("maintenance_threshold", range 0 100)
    = ["Invalid value for maintenance_threshold: must be between 0 and 100"].
Proof. conjuncts; by_compute. Qed.

(** C7. A range field accepts the text "nan": [float] parses it to a NaN,
    which is neither below the minimum nor above the maximum, so no message
    is appended and the NaN is stored, although it is not within
    [[min, max]]. The row [nan_row], with "nan" as [temperature] and "NaN" as
    [maintenance_threshold], passes [validate_data]. *)
Theorem validate_range_accepts_nan :
  Py.float "nan" = Some nan /\
  Py.float_ge_int nan 0 = false /\
  Py.float_le_int nan 200 = false /\
  validate_field nan_row ([], ∅) ("temperature", range 0 200)
    = Ret ([], <["temperature" := VFloat nan]> ∅) /\
  validate_field nan_row ([], ∅) ("maintenance_threshold", range 0 100)
    = Ret ([], <["maintenance_threshold" := VFloat nan]> ∅) /\
  validate_data [nan_row] = Ret (true, "", [nan_record]) /\
  nan_record !! "temperature" = Some (VFloat nan) /\
  nan_record !! "maintenance_threshold" = Some (VFloat nan).
Proof. conjuncts; by_compute. Qed.

Lemma field_value_string (record : RawRow) field v :
  field_value record (field, string_type) = Some v ->
  exists text, record !! field = Some (Some text) /\ v = VStr (Py.strip text).
Proof.
  unfold field_value, validate_field. cbn [fst snd].
  destruct (record !! field) as [[text|]|];
    cbn [strip_cell mbind result_bind]; [case_bool_decide | |];
    cbn [fst snd]; rewrite ?lookup_empty, ?lookup_insert_eq; try done.
  intros [= <-]. by exists text.
Qed.

Lemma field_value_positive_integer (record : RawRow) field v :
  field_value record (field, positive_integer) = Some v ->
  exists text n,
    record !! field = Some (Some text) /\ Py.int (Py.strip text) = Some n /\
    (0 < n)%Z /\ v = VInt n.
Proof.
  unfold field_value, validate_field. cbn [fst snd].
  destruct (record !! field) as [[text|]|];
    cbn [strip_cell mbind result_bind]; [case_bool_decide | |];
    [ | destruct (Py.int _) as [n|] eqn:Hint; [destruct (n <=? 0)%Z eqn:Hn |] | | ];
    cbn [fst snd]; rewrite ?lookup_empty, ?lookup_insert_eq; try done.
  intros [= <-]. exists text, n. repeat split; try done. by apply Z.leb_gt.
Qed.

Lemma field_value_positive_number (record : RawRow) field v :
  field_value record (field, positive_number) = Some v ->
  exists text x,
    record !! field = Some (Some text) /\ Py.float (Py.strip text) = Some x /\
    Py.float_le_int x 0 = false /\ v = VFloat x.
Proof.
  unfold field_value, validate_field. cbn [fst snd].
  destruct (record !! field) as [[text|]|];
    cbn [strip_cell mbind result_bind]; [case_bool_decide | |];
    [ | destruct (Py.float _) as [x|] eqn:Hfloat;
        [destruct (Py.float_le_int x 0) eqn:Hx |] | | ];
    cbn [fst snd]; rewrite ?lookup_empty, ?lookup_insert_eq; try done.
  intros [= <-]. by exists text, x.
Qed.

Lemma field_value_range (record : RawRow) field min max v :
  field_value record (field, range min max) = Some v ->
  exists text x,
    record !! field = Some (Some text) /\ Py.float (Py.strip text) = Some x /\
    Py.float_lt_int x min = false /\ Py.float_gt_int x max = false /\ v = VFloat x.
Proof.
  unfold field_value, validate_field. cbn [fst snd].
  destruct (record !! field) as [[text|]|];
    cbn [strip_cell mbind result_bind]; [case_bool_decide | |];
    [ | destruct (Py.float _) as [x|] eqn:Hfloat;
        [destruct (Py.float_lt_int x min) eqn:Hmin, (Py.float_gt_int x max) eqn:Hmax |]
      | | ];
    cbn [fst snd orb]; rewrite ?lookup_empty, ?lookup_insert_eq; try done.
  intros [= <-]. by exists text, x.
Qed.

(** ** The schema validator: one record *)

Lemma validate_fields_acc (record : RawRow) entries errs (vr : TypedRow) :
  Forall (fun entry => record !! entry.1 <> Some None) entries ->
  for_each (validate_field record) (errs, vr) entries =
  Ret (errs ++ flat_map (field_errors record) entries, store_fields record vr entries).
Proof.
  intros Hcells. revert errs vr.
  induction Hcells as [|entry entries Hentry _ IH]; intros errs vr;
    unfold store_fields; cbn [for_each foldl flat_map].
  - by rewrite app_nil_r.
  - rewrite validate_field_acc by done. cbn [mbind result_bind].
    rewrite IH, <- app_assoc. reflexivity.
Qed.

Lemma validate_fields_None (record : RawRow) entries acc :
  Exists (fun entry => record !! entry.1 = Some None) entries ->
  for_each (validate_field record) acc entries = Raise AttributeError.
Proof.
  intros Hcell. revert acc.
  induction entries as [|entry entries IH]; intros [errs vr]; [by inversion Hcell |].
  cbn [for_each].
  destruct (decide (record !! entry.1 = Some None)) as [Hentry|Hentry].
  - by rewrite validate_field_None.
  - rewrite validate_field_acc by done. cbn [mbind result_bind]. apply IH.
    by apply Exists_cons in Hcell as [|].
Qed.

Lemma short_row_entries (record : RawRow) :
  short_row record <->
  Exists (fun entry => record !! entry.1 = Some None) field_requirements.
Proof. unfold short_row, required_fields. by rewrite Exists_fmap. Qed.

Lemma text_row_entries (record : RawRow) :
  ~ short_row record <->
  Forall (fun entry => record !! entry.1 <> Some None) field_requirements.
Proof.
  rewrite short_row_entries, Forall_forall, Exists_exists. split.
  - intros H entry Hentry Hcell. apply H. by exists entry.
  - intros H (entry & Hentry & Hcell). by apply (H entry).
Qed.

(** A short row raises; every other row gets its messages and its values. *)
Lemma validate_record_short (record : RawRow) :
  short_row record -> validate_record record = Raise AttributeError.
Proof. intros Hshort%short_row_entries. by apply validate_fields_None. Qed.

Lemma validate_record_text (record : RawRow) :
  ~ short_row record ->
  validate_record record = Ret (row_messages record, typed_record record).
Proof.
  intros Htext%text_row_entries. unfold validate_record.
  by rewrite validate_fields_acc.
Qed.

Lemma flat_map_nil {A B} (f : A -> list B) (l : list A) :
  flat_map f l = [] <-> forall a, a ∈ l -> f a = [].
Proof.
  induction l as [|a l IH]; simpl.
  - split; [intros _ a Ha; by apply elem_of_nil in Ha | done].
  - rewrite app_nil, IH. split.
    + intros [Ha Hl] a' [->|Ha']%elem_of_cons; auto.
    + intros H. split; [apply H; left | intros a' Ha'; apply H; by right].
Qed.

Lemma row_messages_nil (record : RawRow) :
  ~ short_row record ->
  row_messages record = [] <->
  forall entry, entry ∈ field_requirements -> is_Some (field_value record entry).
Proof.
  rewrite text_row_entries, Forall_forall. intros Htext.
  unfold row_messages. rewrite flat_map_nil. split; intros H entry Hentry.
  - destruct (field_outcome record entry (Htext entry Hentry))
      as [(msg & Hmsg & _)|(v & _ & ->)]; [| by eexists].
    rewrite (H entry Hentry) in Hmsg. discriminate.
  - destruct (field_outcome record entry (Htext entry Hentry))
      as [(msg & _ & Hnone)|(v & Hnil & _)]; [| done].
    destruct (H entry Hentry) as [v Hv]. congruence.
Qed.

Lemma store_fields_cons (record : RawRow) entry entries (vr : TypedRow) :
  store_fields record vr (entry :: entries) =
  store_fields record
    (from_option (fun v => <[entry.1 := v]> vr) vr (field_value record entry)) entries.
Proof. reflexivity. Qed.

Lemma store_fields_notin (record : RawRow) entries (vr : TypedRow) key :
  key ∉ entries.*1 -> store_fields record vr entries !! key = vr !! key.
Proof.
  revert vr. induction entries as [|entry entries IH]; intros vr Hkey; [done |].
  rewrite fmap_cons, not_elem_of_cons in Hkey. destruct Hkey as [Hne Hkey].
  rewrite store_fields_cons, IH by done.
  destruct (field_value record entry); cbn [from_option]; [| done].
  by rewrite lookup_insert_ne.
Qed.

Lemma store_fields_in (record : RawRow) entries (vr : TypedRow) entry :
  NoDup entries.*1 -> entry ∈ entries -> is_Some (field_value record entry) ->
  store_fields record vr entries !! entry.1 = field_value record entry.
Proof.
  revert vr. induction entries as [|entry' entries IH]; intros vr Hnodup Hin Hsome.
  - by apply elem_of_nil in Hin.
  - rewrite fmap_cons in Hnodup. apply NoDup_cons in Hnodup as [Hfresh Hnodup].
    rewrite store_fields_cons.
    apply elem_of_cons in Hin as [->|Hin].
    + rewrite store_fields_notin by done.
      destruct Hsome as [v ->]. cbn [from_option]. by rewrite lookup_insert_eq.
    + by apply IH.
Qed.

Lemma NoDup_required_fields : NoDup required_fields.
Proof. apply (bool_decide_unpack _). vm_compute. exact I. Qed.

Lemma field_value_present (record : RawRow) entry :
  is_Some (field_value record entry) -> is_Some (record !! entry.1).
Proof.
  destruct entry as [field requirements]. unfold field_value, validate_field.
  cbn [fst snd]. destruct (record !! field) as [cell|]; [by eexists |].
  cbn [snd]. rewrite lookup_empty. by intros [v Hv].
Qed.

(** A row without messages has every required field. *)
Lemma row_passes_header (record : RawRow) :
  row_messages record = [] -> header_complete record.
Proof.
  unfold row_messages. rewrite flat_map_nil.
  intros Hnil field [[field' requirements] [-> Hentry]]%list_elem_of_fmap.
  specialize (Hnil _ Hentry). cbn [fst].
  unfold field_errors, validate_field in Hnil.
  by destruct (record !! field') as [cell|].
Qed.

Lemma typed_record_typed (record : RawRow) :
  ~ short_row record -> row_messages record = [] ->
  typed_from record (typed_record record).
Proof.
  intros Htext Hnil. unfold typed_record. split.
  - intros entry Hentry.
    assert (is_Some (field_value record entry)) as Hsome
      by (by apply row_messages_nil).
    rewrite store_fields_in; auto using NoDup_required_fields.
  - intros key Hkey. rewrite store_fields_notin by done. apply lookup_empty.
Qed.

(** The validator's guarantee on a typed record. *)
Lemma typed_from_validated (record : RawRow) (typed : TypedRow) :
  typed_from record typed -> validated typed.
Proof.
  intros [Hfields _].
  assert (forall entry, entry ∈ field_requirements ->
            exists v, typed !! entry.1 = Some v /\ field_value record entry = Some v)
    as Hentry.
  { intros entry [[v Hv] Heq]%Hfields. exists v. split; [done | congruence]. }
  split.
  - destruct (Hentry ("machine_id", string_type)) as (v & Hv & Hvalue);
      [vm_compute; repeat constructor |].
    apply field_value_string in Hvalue as (text & _ & ->). eauto.
  - destruct (Hentry ("runtime_hours", positive_integer)) as (v & Hv & Hvalue);
      [vm_compute; repeat constructor |].
    apply field_value_positive_integer in Hvalue as (text & n & _ & _ & Hn & ->). eauto.
  - destruct (Hentry ("vibration_level", positive_number)) as (v & Hv & Hvalue);
      [vm_compute; repeat constructor |].
    apply field_value_positive_number in Hvalue as (text & x & _ & _ & Hx & ->). eauto.
  - destruct (Hentry ("temperature", range 0 200)) as (v & Hv & Hvalue);
      [vm_compute; repeat constructor |].
    apply field_value_range in Hvalue as (text & x & _ & _ & Hmin & Hmax & ->). eauto.
  - destruct (Hentry ("maintenance_threshold", range 0 100)) as (v & Hv & Hvalue);
      [vm_compute; repeat constructor |].
    apply field_value_range in Hvalue as (text & x & _ & _ & Hmin & Hmax & ->). eauto.
  - destruct (Hentry ("max_operating_hours", positive_integer)) as (v & Hv & Hvalue);
      [vm_compute; repeat constructor |].
    apply field_value_positive_integer in Hvalue as (text & n & _ & _ & Hn & ->). eauto.
  - destruct (Hentry ("scaling_factor", positive_number)) as (v & Hv & Hvalue);
      [vm_compute; repeat constructor |].
    apply field_value_positive_number in Hvalue as (text & x & _ & _ & Hx & ->). eauto.
Qed.

(** ** The schema validator: the batch *)

Lemma failing_rows_cons start (record : RawRow) records :
  failing_rows start (record :: records) =
  (if decide (row_messages record <> []) then [(start, row_messages record)] else [])
  ++ failing_rows (S start) records.
Proof.
  unfold failing_rows. cbn [enumerate fmap list_fmap prod_map id fst snd].
  rewrite filter_cons. cbn [snd]. by destruct (decide _).
Qed.

Lemma validate_records_acc start records errors (valid_records : list TypedRow) :
  Forall (fun record => ~ short_row record) records ->
  validate_records start records errors valid_records =
  Ret (errors ++ ((fun row => row_line row.1 row.2) <$> failing_rows start records),
       valid_records
         ++ (typed_record <$> filter (fun record => row_messages record = []) records)).
Proof.
  intros Htext. revert start errors valid_records.
  induction Htext as [|record records Hrecord _ IH]; intros start errors valid_records.
  - cbn. by rewrite !app_nil_r.
  - cbn [validate_records]. rewrite failing_rows_cons, filter_cons.
    rewrite validate_record_text by done. cbn [mbind result_bind].
    destruct (row_messages record) as [|msg msgs] eqn:Hmsgs.
    + rewrite IH. repeat case_decide; try done.
      rewrite fmap_cons. cbn [app]. by rewrite <- app_assoc.
    + rewrite IH. repeat case_decide; try done.
      rewrite fmap_app. cbn [app fmap list_fmap fst snd]. by rewrite <- app_assoc.
Qed.

(** The loop raises at its first short row. *)
Lemma validate_records_short start records errors (valid_records : list TypedRow) :
  Exists short_row records ->
  validate_records start records errors valid_records = Raise AttributeError.
Proof.
  intros Hshort. revert start errors valid_records.
  induction records as [|record records IH]; intros start errors valid_records;
    [by inversion Hshort |].
  cbn [validate_records].
  destruct (decide (short_row record)) as [Hrecord|Hrecord].
  - by rewrite validate_record_short.
  - rewrite validate_record_text by done. cbn [mbind result_bind].
    apply Exists_cons in Hshort as [|Hshort]; [done |].
    destruct (row_messages record); by apply IH.
Qed.

Lemma failing_rows_nil start records :
  failing_rows start records = [] <-> Forall (fun record => row_messages record = []) records.
Proof.
  revert start. induction records as [|record records IH]; intros start.
  - split; [constructor | done].
  - rewrite failing_rows_cons, Forall_cons, <- (IH (S start)).
    destruct (decide (row_messages record <> [])) as [Hne|Heq%dec_stable]; cbn [app].
    + split; [discriminate | intros []; contradiction].
    + tauto.
Qed.

Lemma filter_all {A} (P : A -> Prop) `{forall a, Decision (P a)} (l : list A) :
  Forall P l -> filter P l = l.
Proof.
  induction 1 as [|a l Ha Hl IH]; [done |].
  rewrite filter_cons, decide_True by done. by rewrite IH.
Qed.

Lemma header_complete_missing (first_record : RawRow) :
  header_complete first_record <->
  filter (fun field => first_record !! field = None) required_fields = [].
Proof.
  unfold header_complete. split.
  - intros H.
    destruct (filter _ required_fields) as [|field missing] eqn:Hmissing; [done |].
    assert (field ∈ filter (fun field => first_record !! field = None) required_fields)
      as [Hnone Hin]%list_elem_of_filter by (rewrite Hmissing; left).
    destruct (H field Hin) as [text Htext]. congruence.
  - intros H field Hin.
    destruct (first_record !! field) eqn:Hfield; [by eexists |].
    by destruct (filter_nil_not_elem_of _ _ field H Hfield).
Qed.

Lemma header_complete_dec (first_record : RawRow) :
  header_complete first_record \/ ~ header_complete first_record.
Proof.
  rewrite header_complete_missing.
  destruct (decide (filter (fun field => first_record !! field = None) required_fields = []));
    [by left | by right].
Qed.

Lemma elem_of_failing_rows start records i msgs :
  (i, msgs) ∈ failing_rows start records <->
  exists record, (start <= i)%nat /\ records !! (i - start)%nat = Some record /\
    msgs = row_messages record /\ msgs <> [].
Proof.
  revert start. induction records as [|record records IH]; intros start.
  - split; [intros []%elem_of_nil | intros (? & _ & [=] & _)].
  - rewrite failing_rows_cons, elem_of_app, IH. split.
    + intros [Hhead|(record' & Hle & Hlookup & -> & Hne)].
      * destruct (decide _) as [Hne|]; [| by apply elem_of_nil in Hhead].
        apply list_elem_of_singleton in Hhead as [= -> ->].
        exists record. by rewrite Nat.sub_diag.
      * exists record'. split; [lia |]. split; [| done].
        replace (i - start)%nat with (S (i - S start)) by lia. done.
    + intros (record' & Hle & Hlookup & -> & Hne).
      destruct (decide (i = start)) as [->|Hi].
      * left. rewrite Nat.sub_diag in Hlookup. injection Hlookup as ->.
        rewrite decide_True by done. by apply list_elem_of_singleton.
      * right. exists record'. split; [lia |]. split; [| done].
        replace (i - start)%nat with (S (i - S start)) in Hlookup by lia. done.
Qed.

Lemma failing_rows_sorted start records :
  StronglySorted lt (failing_rows start records).*1.
Proof.
  revert start. induction records as [|record records IH]; intros start.
  - constructor.
  - rewrite failing_rows_cons.
    destruct (decide _); cbn [app fmap list_fmap fst]; [| apply IH].
    constructor; [apply IH |].
    apply Forall_forall. intros i [[i' msgs] [-> Hin]]%list_elem_of_fmap.
    apply elem_of_failing_rows in Hin as (_ & Hle & _). cbn. lia.
Qed.

Lemma length_failing_rows start records :
  length (failing_rows start records) =
  length (filter (fun record => row_messages record <> []) records).
Proof.
  revert start. induction records as [|record records IH]; intros start; [done |].
  rewrite failing_rows_cons, filter_cons, length_app, IH.
  by destruct (decide _).
Qed.

Lemma validate_data_complete (records : list RawRow) (first_record : RawRow) :
  head records = Some first_record -> header_complete first_record ->
  Forall (fun record => ~ short_row record) records ->
  validate_data records =
  match report_lines records with
  | [] => Ret (true, "", typed_record <$> records)
  | _ :: _ => Ret (false, Py.join newline (report_lines records), [])
  end.
Proof.
  intros Hhead Hheader Htext. destruct records as [|record records]; [done |].
  injection Hhead as ->. unfold validate_data.
  apply header_complete_missing in Hheader. rewrite Hheader.
  rewrite validate_records_acc by done. cbn [app mbind result_bind].
  fold (report_lines (first_record :: records)).
  destruct (report_lines _) as [|line lines] eqn:Hlines; [| done].
  apply fmap_nil_inv, failing_rows_nil in Hlines.
  by rewrite filter_all.
Qed.

(** With a complete header, a short row anywhere makes [validate_data]
    raise. *)
Lemma validate_data_short (records : list RawRow) (first_record : RawRow) :
  head records = Some first_record -> header_complete first_record ->
  Exists short_row records ->
  validate_data records = Raise AttributeError.
Proof.
  intros Hhead Hheader Hshort. destruct records as [|record records]; [done |].
  injection Hhead as ->. unfold validate_data.
  apply header_complete_missing in Hheader. rewrite Hheader.
  by rewrite validate_records_short.
Qed.

Lemma validate_data_incomplete (first_record : RawRow) (rest : list RawRow) :
  ~ header_complete first_record ->
  missing_fields first_record <> [] /\
  validate_data (first_record :: rest) =
  Ret (false, header_error (missing_fields first_record), []).
Proof.
  intros Hheader. rewrite header_complete_missing in Hheader.
  split; [exact Hheader |]. unfold validate_data.
  fold (missing_fields first_record). unfold missing_fields in Hheader |- *.
  by destruct (filter _ required_fields).
Qed.

(** [validate_data] succeeds exactly on a non-empty list of rows that are
    not short and have no message, with no message and the typed record of
    every row. *)
Lemma validate_data_valid (records : list RawRow) message (valid_records : list TypedRow) :
  validate_data records = Ret (true, message, valid_records) <->
  records <> [] /\
  Forall (fun record => ~ short_row record) records /\
  Forall (fun record => row_messages record = []) records /\
  message = "" /\
  valid_records = typed_record <$> records.
Proof.
  split.
  - destruct records as [|first_record rest]; [discriminate |].
    destruct (header_complete_dec first_record) as [Hheader|Hheader].
    + destruct (decide (Exists short_row (first_record :: rest))) as [Hshort|Htext].
      * by rewrite (validate_data_short (first_record :: rest) first_record).
      * apply not_Exists_Forall in Htext; [| intros record; apply _].
        rewrite (validate_data_complete (first_record :: rest) first_record) by done.
        destruct (report_lines (first_record :: rest)) as [|line lines] eqn:Hlines;
          [| discriminate].
        apply fmap_nil_inv, failing_rows_nil in Hlines.
        intros [= <- <-]. done.
    + destruct (validate_data_incomplete first_record rest Hheader) as [_ ->]. discriminate.
  - intros (Hrecords & Htext & Hrows & -> & ->).
    destruct records as [|first_record rest]; [done |].
    rewrite (validate_data_complete (first_record :: rest) first_record);
      [| done | apply row_passes_header; by apply Forall_cons in Hrows as [? _] | done].
    unfold report_lines. apply (failing_rows_nil 1%nat) in Hrows. by rewrite Hrows.
Qed.

(** When the first row has every required field, no row is short and some
    row has a field-level error, [validate_data] fails, and its message is
    one line "Row i: msg1, msg2, ..." per failing row, joined by newlines: the
    rows are numbered from 1, the lines follow the input order, and a line
    lists every message of its row in schema order. Of seven rows failing at
    2, 4 and 7, exactly these three lines are reported. *)
Lemma validate_data_collects_all_errors :
  (forall (records : list RawRow) (first_record : RawRow),
     head records = Some first_record ->
     header_complete first_record ->
     Forall (fun record => ~ short_row record) records ->
     Exists (fun record => row_messages record <> []) records ->
     validate_data records = Ret (false, Py.join newline (report_lines records), []) /\
     report_lines records =
       (fun row => "Row " +:+ pretty row.1 +:+ ": " +:+ Py.join ", " row.2)
         <$> failing_rows 1 records /\
     length (report_lines records) =
       length (filter (fun record => row_messages record <> []) records) /\
     StronglySorted lt (failing_rows 1 records).*1 /\
     (forall i msgs,
        (i, msgs) ∈ failing_rows 1 records <->
        exists record,
          (1 <= i)%nat /\ records !! (i - 1)%nat = Some record /\
          msgs = flat_map (field_errors record) field_requirements /\ msgs <> [])) /\
  validate_data p2_records =
    Ret (false,
         Py.join newline
           [ "Row 2: Invalid value for runtime_hours: must be a positive integer, Invalid value for temperature: must be between 0 and 200";
             "Row 4: Missing required field: machine_id";
             "Row 7: Invalid value for runtime_hours: must be a positive integer, Invalid value for temperature: must be between 0 and 200" ],
         []).
Proof.
  split; [| vm_compute; reflexivity].
  intros records first_record Hhead Hheader Htext Hfails.
  rewrite (validate_data_complete records first_record) by done.
  assert (report_lines records <> []) as Hlines.
  { intros Hnil%fmap_nil_inv%failing_rows_nil.
    apply Exists_exists in Hfails as (record & Hin & Hne).
    rewrite Forall_forall in Hnil. by apply Hne, Hnil. }
  split; [by destruct (report_lines records) |].
  split; [reflexivity |].
  split; [unfold report_lines; by rewrite length_fmap, length_failing_rows |].
  split; [apply failing_rows_sorted |].
  intros i msgs. apply elem_of_failing_rows.
Qed.

(** C4. A batch with a short line gets no report. The reader stores [None]
    under the fields a short line leaves out; the test for a missing field
    calls [strip] on that cell and raises [AttributeError], which nothing
    catches. So for a first row with two field-level errors followed by the
    row of a line without its last cell, [validate_data] raises instead of
    failing with the line of row 1 and a line "Row 2: Missing required field:
    scaling_factor", and so does [process_csv_data]. With text in that cell,
    blank or not, both lines are reported. *)
Theorem validate_data_short_line :
  header_complete two_errors_row /\
  row_messages two_errors_row
    = [ "Invalid value for runtime_hours: must be a positive integer";
        "Invalid value for temperature: must be between 0 and 200" ] /\
  short_line_row !! "scaling_factor" = Some None /\
  validate_field short_line_row ([], ∅) ("scaling_factor", positive_number)
    = Raise AttributeError /\
  validate_data [two_errors_row; short_line_row] = Raise AttributeError /\
  process_csv_data (rows_reader [two_errors_row; short_line_row]) no_analysis ""
    = Raise AttributeError /\
  validate_data [two_errors_row; <["scaling_factor" := Some ""]> short_line_row]
    = Ret (false,
           Py.join newline
             [ "Row 1: Invalid value for runtime_hours: must be a positive integer, Invalid value for temperature: must be between 0 and 200";
               "Row 2: Missing required field: scaling_factor" ],
           []).
Proof.
  split.
  { intros field Hfield. apply (bool_decide_unpack _).
    revert field Hfield. apply Forall_forall. vm_compute. repeat constructor. }
  conjuncts; by_compute.
Qed.

(** C5. When the first row lacks a required field name, [validate_data]
    fails at once with the single message "ERROR: Missing required field(s):
    ... in header." that lists every missing name, comma-joined in schema
    order; the outcome is the same whatever the rows hold, so no row-level
    error is reported. Without [scaling_factor] in the header only the header
    error is reported, although the second row has bad values. *)
Theorem validate_data_header_fail_fast :
  (forall (first_record : RawRow) (rest : list RawRow),
     ~ header_complete first_record ->
     missing_fields first_record <> [] /\
     (forall field,
        field ∈ missing_fields first_record <->
        field ∈ required_fields /\ first_record !! field = None) /\
     validate_data (first_record :: rest) =
       Ret (false,
            "ERROR: Missing required field(s): "
              +:+ Py.join ", " (missing_fields first_record) +:+ " in header.",
            []) /\
     (forall rest', validate_data (first_record :: rest') = validate_data (first_record :: rest))) /\
  validate_data p3_records =
    Ret (false, "ERROR: Missing required field(s): scaling_factor in header.", []) /\
  row_messages (delete "scaling_factor" two_errors_row) <> [].
Proof.
  split; [| split; [vm_compute; reflexivity | vm_compute; discriminate]].
  intros first_record rest Hheader.
  destruct (validate_data_incomplete first_record rest Hheader) as [Hmissing Hdata].
  split; [exact Hmissing |].
  split; [intros field; unfold missing_fields; rewrite list_elem_of_filter; tauto |].
  split; [exact Hdata |].
  intros rest'. rewrite Hdata.
  by destruct (validate_data_incomplete first_record rest' Hheader) as [_ ->].
Qed.

Lemma validate_data_header_fail_fast_witness :
  validate_data p3_records =
    Ret (false,
         "ERROR: Missing required field(s): "
           +:+ Py.join ", " (missing_fields (delete "scaling_factor" sample_row))
           +:+ " in header.",
         []).
Proof.
  apply (proj1 validate_data_header_fail_fast).
  intros Hheader. destruct (Hheader "scaling_factor") as [text Htext].
  - vm_compute. repeat constructor.
  - vm_compute in Htext. discriminate.
Defined.

(** C6. Validation is all or nothing. On a non-empty input without a short
    row [validate_data] returns. Whenever it returns, it succeeds exactly
    when no row has a message; then the message is empty and the typed
    records are one per input row, in input order, each the conversion of its
    row. Otherwise it returns the empty list of records: no record of a
    failing batch is returned, however many of its rows are valid. The one
    other outcome is the [AttributeError] of a short row, with which no
    record is returned either. *)
Theorem validate_data_all_or_nothing (records : list RawRow) :
  records <> [] ->
  (validate_data records = Raise AttributeError /\ Exists short_row records) \/
  exists is_valid error_message valid_records,
    validate_data records = Ret (is_valid, error_message, valid_records) /\
    (is_valid = true <-> Forall (fun record => row_messages record = []) records) /\
    (is_valid = false -> valid_records = []) /\
    (is_valid = true ->
     error_message = "" /\
     length valid_records = length records /\
     Forall2 typed_from records valid_records).
Proof.
  intros Hrecords. destruct records as [|first_record rest]; [done |].
  destruct (header_complete_dec first_record) as [Hheader|Hheader].
  - destruct (decide (Exists short_row (first_record :: rest))) as [Hshort|Htext].
    { left. split; [| done].
      by apply (validate_data_short (first_record :: rest) first_record). }
    right. apply not_Exists_Forall in Htext; [| intros record; apply _].
    rewrite (validate_data_complete (first_record :: rest) first_record) by done.
    destruct (report_lines (first_record :: rest)) as [|line lines] eqn:Hlines.
    + apply fmap_nil_inv, failing_rows_nil in Hlines.
      eexists _, _, _. split; [reflexivity |].
      split; [tauto |]. split; [discriminate |]. intros _.
      split; [reflexivity |]. split; [apply length_fmap |].
      apply Forall2_fmap_r, Forall_Forall2_diag.
      rewrite Forall_forall in Htext, Hlines |- *.
      intros record Hrecord.
      apply typed_record_typed; [by apply Htext | by apply Hlines].
    + eexists _, _, _. split; [reflexivity |].
      split; [| split; [reflexivity | discriminate]].
      split; [discriminate |]. intros Hnil.
      apply (failing_rows_nil 1%nat) in Hnil.
      unfold report_lines in Hlines. by rewrite Hnil in Hlines.
  - right. destruct (validate_data_incomplete first_record rest Hheader) as [_ ->].
    eexists _, _, _. split; [reflexivity |].
    split; [| split; [reflexivity | discriminate]].
    split; [discriminate |]. intros Hnil. destruct Hheader.
    apply row_passes_header. by inversion Hnil.
Qed.

Lemma validate_data_all_or_nothing_witness :
  (exists is_valid error_message valid_records,
     validate_data [sample_row; low_vibration_row]
       = Ret (is_valid, error_message, valid_records) /\
     (is_valid = true ->
      error_message = "" /\
      length valid_records = 2%nat /\
      Forall2 typed_from [sample_row; low_vibration_row] valid_records)) /\
  (exists is_valid error_message valid_records,
     validate_data p2_records = Ret (is_valid, error_message, valid_records) /\
     (is_valid = false -> valid_records = [])).
Proof.
  split.
  - destruct (validate_data_all_or_nothing [sample_row; low_vibration_row])
      as [[Hraise _]|(is_valid & error_message & valid_records & Hdata & _ & _ & Hvalid)];
      [discriminate | vm_compute in Hraise; discriminate |].
    exists is_valid, error_message, valid_records. split; [exact Hdata | exact Hvalid].
  - destruct (validate_data_all_or_nothing p2_records)
      as [[Hraise _]|(is_valid & error_message & valid_records & Hdata & _ & Hinvalid & _)];
      [discriminate | vm_compute in Hraise; discriminate |].
    exists is_valid, error_message, valid_records. split; [exact Hdata | exact Hinvalid].
Defined.

(** Every record [validate_data] returns is validated. *)
Lemma validate_data_validated (records : list RawRow) message (valid_records : list TypedRow) :
  validate_data records = Ret (true, message, valid_records) ->
  Forall validated valid_records.
Proof.
  intros (_ & Htext & Hrows & _ & ->)%validate_data_valid.
  rewrite Forall_fmap, Forall_forall. rewrite Forall_forall in Htext, Hrows.
  intros record Hrecord. cbn.
  apply (typed_from_validated record), typed_record_typed;
    [by apply Htext | by apply Hrows].
Qed.

(** ** The error paths of the metrics on validated records *)

(** On a validated record [calculate_metrics] returns, or raises one of two
    exceptions: [ZeroDivisionError] from a division, [OverflowError] from an
    [int] too large for a [float]. *)
Lemma calculate_metrics_outcomes (typed : TypedRow) :
  validated typed ->
  (exists m, calculate_metrics typed = Ret m) \/
  calculate_metrics typed = Raise ZeroDivisionError \/
  calculate_metrics typed = Raise OverflowError.
Proof.
  intros [_ (rh & Hrh & _) (v & Hv & _) _ (th & Hth & _) (mh & Hmh & _) (s & Hs & _)].
  unfold calculate_metrics, getitem. rewrite Hv, Hs, Hrh, Hmh, Hth.
  cbn [mbind result_bind Py.mul Py.round Py.truediv Py.sub Py.float_gt].
  unfold Py.float_of_int, Py.int_truediv, Py.float_div.
  repeat match goal with
         | |- context [if ?c then _ else _] => destruct c; cbn [mbind result_bind]
         end; eauto.
Qed.

(** C1. The row [low_vibration_row] passes [validate_data] with
    [runtime_hours = 50], [max_operating_hours = 200],
    [vibration_level = 0.001] and [scaling_factor = 1], all positive; its
    risk [round(0.001 * 1, 2)] is [0.0], and [calculate_metrics] raises
    [ZeroDivisionError] at [runtime_hours / predicted_failure_risk]. *)
Theorem calculate_metrics_zero_division :
  validate_data [low_vibration_row] = Ret (true, "", [low_vibration_record]) /\
  low_vibration_record !! "runtime_hours" = Some (VInt 50) /\
  low_vibration_record !! "max_operating_hours" = Some (VInt 200) /\
  low_vibration_record !! "vibration_level" = Some (VFloat 0.001) /\
  low_vibration_record !! "scaling_factor" = Some (VFloat 1) /\
  (0 <? 0.001) = true /\ (0 <? 1) = true /\
  Py.round2 (0.001 * 1) = 0 /\
  calculate_metrics low_vibration_record = Raise ZeroDivisionError.
Proof. conjuncts; by_compute. Qed.

(** A second error path: a [runtime_hours] of 401 digits passes the
    validator, and its conversion to [float] raises [OverflowError]. *)
Lemma calculate_metrics_overflow :
  validate_data [long_running_row] = Ret (true, "", [long_running_record]) /\
  calculate_metrics long_running_record = Raise OverflowError.
Proof. conjuncts; by_compute. Qed.

(** ** The pipeline *)

(** C9. When the reader finds no record in the stripped input,
    [parse_csv_data] returns its error text, which reports "No data found in
    the CSV input", and [process_csv_data] returns that text: it does not go
    on to [validate_data], which raises [IndexError] on an empty list, nor to
    the analysis, whatever the renderer is. *)
Theorem process_csv_data_empty_input
    (DictReader : string -> string + list RawRow)
    (generate_analysis_report : list TypedRow -> list MetricsResult -> string)
    (csv_data : string) :
  DictReader (Py.strip csv_data) = inr [] ->
  parse_csv_data DictReader csv_data
    = inl "ERROR: Invalid data format. Please provide data in CSV format. Details: No data found in the CSV input" /\
  process_csv_data DictReader generate_analysis_report csv_data
    = Ret "ERROR: Invalid data format. Please provide data in CSV format. Details: No data found in the CSV input" /\
  validate_data [] = Raise IndexError.
Proof.
  intros Hempty.
  assert (parse_csv_data DictReader csv_data
          = inl (parse_error "No data found in the CSV input")) as Hparse
    by (unfold parse_csv_data; by rewrite Hempty).
  split; [exact Hparse |]. split; [| reflexivity].
  unfold process_csv_data. by rewrite Hparse.
Qed.

Lemma process_csv_data_empty_input_witness :
  process_csv_data empty_reader no_analysis "machine_id,runtime_hours"
  = Ret "ERROR: Invalid data format. Please provide data in CSV format. Details: No data found in the CSV input".
Proof.
  apply (process_csv_data_empty_input empty_reader no_analysis). reflexivity.
Defined.

(** * Further properties *)

(** ** The validator reads the required fields only *)

Lemma validate_field_same (r1 r2 : RawRow) acc entry :
  fmap Py.strip <$> r1 !! entry.1 = fmap Py.strip <$> r2 !! entry.1 ->
  validate_field r1 acc entry = validate_field r2 acc entry.
Proof.
  destruct acc as [row_errors valid_record], entry as [field requirements].
  cbn [fst]. intros Hfield. unfold validate_field.
  destruct (r1 !! field) as [[text1|]|], (r2 !! field) as [[text2|]|]; try done.
  injection Hfield as Hfield. cbn [strip_cell mbind result_bind]. by rewrite Hfield.
Qed.

Lemma for_each_same {A B} (f g : A -> B -> result A) (l : list B) (a : A) :
  (forall a b, b ∈ l -> f a b = g a b) -> for_each f a l = for_each g a l.
Proof.
  revert a. induction l as [|b l IH]; intros a Hfg; [done |].
  cbn [for_each]. rewrite Hfg by left. destruct (g a b) as [a'|e]; [| done].
  cbn [mbind result_bind]. apply IH. intros a'' b' Hb'. apply Hfg. by right.
Qed.

Lemma filter_same {A} (P Q : A -> Prop) `{forall a, Decision (P a)}
    `{forall a, Decision (Q a)} (l : list A) :
  (forall a, a ∈ l -> P a <-> Q a) -> filter P l = filter Q l.
Proof.
  induction l as [|a l IH]; intros HPQ; [done |].
  rewrite !filter_cons, IH by (intros a' Ha'; apply HPQ; by right).
  destruct (decide (P a)) as [Ha|Ha], (decide (Q a)) as [Ha'|Ha']; try done;
    destruct (HPQ a); try left; tauto.
Qed.

Lemma validate_record_same (r1 r2 : RawRow) :
  same_required r1 r2 -> validate_record r1 = validate_record r2.
Proof.
  intros Hsame. unfold validate_record. apply for_each_same.
  intros acc entry Hentry. apply validate_field_same, Hsame.
  unfold required_fields. apply list_elem_of_fmap. by exists entry.
Qed.

Lemma validate_records_same start (l1 l2 : list RawRow) errors (valid_records : list TypedRow) :
  Forall2 same_required l1 l2 ->
  validate_records start l1 errors valid_records
  = validate_records start l2 errors valid_records.
Proof.
  intros Hsame. revert start errors valid_records.
  induction Hsame as [|r1 r2 l1 l2 Hr Hl IH]; intros start errors valid_records; [done |].
  cbn [validate_records]. rewrite (validate_record_same r1 r2 Hr).
  destruct (validate_record r2) as [[[|msg msgs] valid_record]|e];
    cbn [mbind result_bind]; [apply IH | apply IH | done].
Qed.

(** X1. [validate_data] reads only the cells of the seven required fields,
    and of a cell only its stripped text: two inputs whose rows have, one by
    one, the same required fields with the same cells once stripped get the
    same outcome, whether a result or an exception. Other columns, and white
    space around a cell, change nothing. *)
Theorem validate_data_ignores_other_columns (l1 l2 : list RawRow) :
  Forall2 same_required l1 l2 -> validate_data l1 = validate_data l2.
Proof.
  intros Hsame. destruct Hsame as [|r1 r2 l1 l2 Hr Hl]; [done |].
  unfold validate_data.
  assert (filter (fun field => r1 !! field = None) required_fields
          = filter (fun field => r2 !! field = None) required_fields) as ->.
  { apply filter_same. intros field Hfield. specialize (Hr field Hfield).
    destruct (r1 !! field), (r2 !! field); done. }
  destruct (filter _ required_fields); [| done].
  by rewrite (validate_records_same 1 (r1 :: l1) (r2 :: l2)) by by constructor.
Qed.

Lemma validate_data_ignores_other_columns_witness :
  validate_data [padded_row] = validate_data [sample_row].
Proof.
  apply validate_data_ignores_other_columns.
  repeat constructor. intros field Hfield. revert field Hfield.
  apply Forall_forall. apply (bool_decide_unpack _). vm_compute. exact I.
Defined.

(** ** The error and edge behaviour of the metrics *)

Lemma bind_Raise {A B} (k : A -> result B) (r : result A) (e : exn) :
  r ≫= k = Raise e <-> r = Raise e \/ exists a, r = Ret a /\ k a = Raise e.
Proof.
  destruct r as [a|e']; cbn; split.
  - intros H. right. by exists a.
  - intros [[=]|(a' & [= <-] & H)]. exact H.
  - intros [= ->]. by left.
  - intros [[= ->]|(a' & [=] & _)]. done.
Qed.

Lemma float_of_int_not_KeyError n : Py.float_of_int n <> Raise KeyError.
Proof. unfold Py.float_of_int. by destruct (is_infinity _). Qed.

Lemma float_div_not_KeyError a b : Py.float_div a b <> Raise KeyError.
Proof. unfold Py.float_div. by destruct (b =? 0). Qed.

Lemma truediv_not_KeyError a b : Py.truediv a b <> Raise KeyError.
Proof.
  destruct a as [s|x|x], b as [s'|y|y]; cbn; try done.
  - unfold Py.int_truediv. destruct (y =? 0)%Z; [done |]. by destruct (is_infinity _).
  - intros [Hx|(x' & _ & Hdiv)]%bind_Raise;
      [by apply float_of_int_not_KeyError in Hx | by apply float_div_not_KeyError in Hdiv].
  - intros [Hy|(y' & _ & Hdiv)]%bind_Raise;
      [by apply float_of_int_not_KeyError in Hy | by apply float_div_not_KeyError in Hdiv].
  - apply float_div_not_KeyError.
Qed.

Lemma mul_not_KeyError a b : Py.mul a b <> Raise KeyError.
Proof.
  destruct a as [s|x|x], b as [s'|y|y]; cbn; try done;
    intros [H|(z & _ & [=])]%bind_Raise; by apply float_of_int_not_KeyError in H.
Qed.

Lemma sub_not_KeyError a b : Py.sub a b <> Raise KeyError.
Proof.
  destruct a as [s|x|x], b as [s'|y|y]; cbn; try done;
    intros [H|(z & _ & [=])]%bind_Raise; by apply float_of_int_not_KeyError in H.
Qed.

Lemma round_not_KeyError v : Py.round v <> Raise KeyError.
Proof. by destruct v. Qed.

Lemma float_gt_not_KeyError x v : Py.float_gt x v <> Raise KeyError.
Proof. by destruct v. Qed.

(** X2. [calculate_metrics] raises [KeyError] exactly when the record lacks
    one of the five fields it reads; [machine_id] and [temperature] may be
    absent. *)
Theorem calculate_metrics_KeyError (record : TypedRow) :
  calculate_metrics record = Raise KeyError <->
  exists key, key ∈ metric_inputs /\ record !! key = None.
Proof.
  unfold calculate_metrics, getitem, metric_inputs. split.
  - intros H.
    destruct (record !! "vibration_level") as [vibration_level|] eqn:Hvib;
      [| exists "vibration_level"; split; [set_solver | done]].
    destruct (record !! "scaling_factor") as [scaling_factor|] eqn:Hscal;
      [| exists "scaling_factor"; split; [set_solver | done]].
    destruct (record !! "runtime_hours") as [runtime_hours|] eqn:Hrun;
      [| exists "runtime_hours"; split; [set_solver | done]].
    destruct (record !! "max_operating_hours") as [max_operating_hours|] eqn:Hmax;
      [| exists "max_operating_hours"; split; [set_solver | done]].
    destruct (record !! "maintenance_threshold") as [maintenance_threshold|] eqn:Hthr;
      [| exists "maintenance_threshold"; split; [set_solver | done]].
    exfalso. cbn [mbind result_bind] in H.
    apply bind_Raise in H as [H|(product & _ & H)]; [by apply mul_not_KeyError in H |].
    apply bind_Raise in H as [H|(risk & _ & H)]; [by apply round_not_KeyError in H |].
    apply bind_Raise in H as [H|(q1 & _ & H)]; [by apply truediv_not_KeyError in H |].
    apply bind_Raise in H as [H|(d & _ & H)]; [by apply sub_not_KeyError in H |].
    apply bind_Raise in H as [H|(q2 & _ & H)]; [by apply truediv_not_KeyError in H |].
    apply bind_Raise in H as [H|(q3 & _ & H)]; [by apply truediv_not_KeyError in H |].
    apply bind_Raise in H as [H|(urgent & _ & H)]; [by apply float_gt_not_KeyError in H |].
    by destruct (_ && _).
  - intros (key & Hkey & Hnone).
    repeat (apply elem_of_cons in Hkey as [->|Hkey];
            [rewrite Hnone; by repeat (destruct (record !! _); cbn [mbind result_bind]) |]).
    by apply elem_of_nil in Hkey.
Qed.

Lemma calculate_metrics_KeyError_witness :
  calculate_metrics (delete "scaling_factor" (p4_record 30)) = Raise KeyError.
Proof.
  apply calculate_metrics_KeyError. exists "scaling_factor".
  split; [vm_compute; repeat constructor | reflexivity].
Defined.

Lemma float_div_Ret a b q : Py.float_div a b = Ret q -> (b =? 0) = false.
Proof. unfold Py.float_div. by destruct (b =? 0). Qed.

Lemma float_of_int_Ret_zero n x : Py.float_of_int n = Ret x -> n = 0%Z -> x = 0.
Proof.
  intros H ->. unfold Py.float_of_int in H. cbn in H. by injection H as <-.
Qed.

Lemma truediv_Ret a b q : Py.truediv a b = Ret q -> nonzero b.
Proof.
  destruct a as [s|x|x], b as [s'|y|y]; cbn; try done.
  - unfold Py.int_truediv. destruct (y =? 0)%Z eqn:Hy; [done |]. intros _.
    by apply Z.eqb_neq.
  - intros (x' & _ & Hdiv)%bind_Ret. by eapply float_div_Ret.
  - intros (y' & Hy' & Hdiv%float_div_Ret)%bind_Ret Hy.
    apply (float_of_int_Ret_zero _ _ Hy') in Hy. by subst.
  - apply float_div_Ret.
Qed.

(** X3. Whenever [calculate_metrics] returns, its three divisors were
    numbers other than zero: [runtime_hours], [max_operating_hours] and the
    rounded risk it returns. So no result has a risk of zero: a product
    [vibration_level * scaling_factor] that rounds to [0.0] never gets
    scores. *)
Theorem calculate_metrics_divisors (record : TypedRow) (m : MetricsResult) :
  calculate_metrics record = Ret m ->
  exists runtime_hours max_operating_hours,
    record !! "runtime_hours" = Some runtime_hours /\
    record !! "max_operating_hours" = Some max_operating_hours /\
    nonzero runtime_hours /\
    nonzero max_operating_hours /\
    nonzero (predicted_failure_risk m).
Proof.
  intros [vibration_level scaling_factor runtime_hours max_operating_hours
          threshold product remaining_hours urgency_quotient margin_quotient
          efficiency_quotient urgent
          _ _ Hrun Hmax _ _ _ Huq _ _ Hmq _ _ Heq _ _ _]%calculate_metrics_steps.
  exists runtime_hours, max_operating_hours.
  eauto 10 using truediv_Ret.
Qed.

Lemma calculate_metrics_divisors_witness :
  exists m, calculate_metrics (p4_record 30) = Ret m /\ nonzero (predicted_failure_risk m).
Proof.
  destruct (calculate_metrics (p4_record 30)) as [m|e] eqn:Hm; [| vm_compute in Hm; discriminate].
  exists m. split; [reflexivity |].
  by destruct (calculate_metrics_divisors _ _ Hm) as (_ & _ & _ & _ & _ & _ & Hrisk).
Defined.

(** ** The pipeline *)

Lemma string_app_assoc (s1 s2 s3 : string) : (s1 +:+ s2) +:+ s3 = s1 +:+ (s2 +:+ s3).
Proof.
  induction s1 as [|c s1 IH]; [done |].
  change (String c ((s1 +:+ s2) +:+ s3) = String c (s1 +:+ (s2 +:+ s3))).
  by rewrite IH.
Qed.

Lemma comprehension_Raise {A B} (f : A -> result B) (l : list A) e :
  comprehension f l = Raise e -> exists a, a ∈ l /\ f a = Raise e.
Proof.
  induction l as [|a l IH]; [done |]. cbn [comprehension].
  intros [Ha|(b & _ & [Hl|(bs & _ & [=])]%bind_Raise)]%bind_Raise.
  - exists a. split; [left | done].
  - destruct (IH Hl) as (a' & Ha' & Hraise). exists a'. split; [by right | done].
Qed.

Lemma comprehension_Ret {A B} (f : A -> result B) (l : list A) (bs : list B) :
  comprehension f l = Ret bs -> Forall2 (fun a b => f a = Ret b) l bs.
Proof.
  revert bs. induction l as [|a l IH]; intros bs; [by intros [= <-] |].
  cbn [comprehension].
  intros (b & Hb & (bs' & Hbs' & [= <-])%bind_Ret)%bind_Ret.
  constructor; [done | by apply IH].
Qed.

(** On a non-empty list [validate_data] raises for a short row, or returns,
    with no record when it fails and with validated records, one per row,
    when it succeeds. *)
Lemma validate_data_outcome (records : list RawRow) :
  records <> [] ->
  (validate_data records = Raise AttributeError /\
   exists first_record,
     head records = Some first_record /\ header_complete first_record /\
     Exists short_row records) \/
  exists is_valid error_message valid_records,
    validate_data records = Ret (is_valid, error_message, valid_records) /\
    (is_valid = false -> valid_records = []) /\
    (is_valid = true ->
     error_message = "" /\ length valid_records = length records /\
     Forall validated valid_records).
Proof.
  intros Hrecords. destruct records as [|first_record rest]; [done |].
  destruct (header_complete_dec first_record) as [Hheader|Hheader].
  - destruct (decide (Exists short_row (first_record :: rest))) as [Hshort|Htext].
    { left. split; [by apply (validate_data_short (first_record :: rest) first_record) |].
      by exists first_record. }
    right. apply not_Exists_Forall in Htext; [| intros record; apply _].
    pose proof (validate_data_complete (first_record :: rest) first_record
                  eq_refl Hheader Htext) as Hdata.
    destruct (report_lines (first_record :: rest)) as [|line lines].
    + eexists _, _, _. split; [exact Hdata |]. split; [done |]. intros _.
      split; [done |]. split; [apply length_fmap |].
      by eapply validate_data_validated.
    + eexists _, _, _. split; [exact Hdata |]. done.
  - right. destruct (validate_data_incomplete first_record rest Hheader) as [_ Hdata].
    eexists _, _, _. split; [exact Hdata |]. done.
Qed.

Lemma parse_csv_data_records (DictReader : string -> string + list RawRow) csv_data records :
  parse_csv_data DictReader csv_data = inr records ->
  DictReader (Py.strip csv_data) = inr records /\ records <> [].
Proof.
  unfold parse_csv_data.
  destruct (DictReader (Py.strip csv_data)) as [details|[|record rest]]; try done.
  by intros [= <-].
Qed.

(** X4. Whatever the reader and the renderer are, [process_csv_data] raises
    three exceptions only. [AttributeError] comes from [validate_data], for
    rows with a complete header of which one is short. [ZeroDivisionError]
    and [OverflowError] come from [calculate_metrics], on a record that
    passed validation. A failed parse and a failed validation are returned
    as text, and [validate_data] is never given an empty list. *)
Theorem process_csv_data_exceptions
    (DictReader : string -> string + list RawRow)
    (generate_analysis_report : list TypedRow -> list MetricsResult -> string)
    (csv_data : string) (e : exn) :
  process_csv_data DictReader generate_analysis_report csv_data = Raise e ->
  exists records,
    parse_csv_data DictReader csv_data = inr records /\
    ((e = AttributeError /\
      validate_data records = Raise AttributeError /\
      exists first_record,
        head records = Some first_record /\ header_complete first_record /\
        Exists short_row records) \/
     ((e = ZeroDivisionError \/ e = OverflowError) /\
      exists valid_records record,
        validate_data records = Ret (true, "", valid_records) /\
        record ∈ valid_records /\
        validated record /\
        calculate_metrics record = Raise e)).
Proof.
  unfold process_csv_data.
  destruct (parse_csv_data DictReader csv_data) as [text|records] eqn:Hparse; [done |].
  pose proof Hparse as [_ Hrecords]%parse_csv_data_records.
  intros Hraise. exists records. split; [done |].
  destruct (validate_data_outcome records Hrecords)
    as [[Hdata Hshort]|(is_valid & error_message & valid_records & Hdata & _ & Hvalid)];
    rewrite Hdata in Hraise; cbn [mbind result_bind] in Hraise.
  { injection Hraise as <-. by left. }
  right. destruct is_valid; cbn [negb] in Hraise; [| done].
  destruct Hvalid as (-> & _ & Hvalidated); [done |].
  apply bind_Raise in Hraise as [Hcalc|(calculations & _ & [=])].
  apply comprehension_Raise in Hcalc as (record & Hin & Hcalc).
  assert (validated record) as Hrecord by (by eapply Forall_forall in Hvalidated).
  split.
  - destruct (calculate_metrics_outcomes record Hrecord) as [[m Hm]|[Hm|Hm]];
      rewrite Hcalc in Hm; [done | injection Hm as -> | injection Hm as ->]; auto.
  - by exists valid_records, record.
Qed.

Lemma process_csv_data_exceptions_witness :
  process_csv_data (rows_reader [sample_row; short_line_row]) no_analysis ""
    = Raise AttributeError /\
  process_csv_data (rows_reader [low_vibration_row]) no_analysis ""
    = Raise ZeroDivisionError /\
  exists records,
    parse_csv_data (rows_reader [low_vibration_row]) "" = inr records /\
    ((ZeroDivisionError = AttributeError /\
      validate_data records = Raise AttributeError /\
      exists first_record,
        head records = Some first_record /\ header_complete first_record /\
        Exists short_row records) \/
     ((ZeroDivisionError = ZeroDivisionError \/ ZeroDivisionError = OverflowError) /\
      exists valid_records record,
        validate_data records = Ret (true, "", valid_records) /\
        record ∈ valid_records /\
        validated record /\
        calculate_metrics record = Raise ZeroDivisionError)).
Proof.
  split; [by_compute |].
  assert (process_csv_data (rows_reader [low_vibration_row]) no_analysis ""
          = Raise ZeroDivisionError) as H by by_compute.
  split; [exact H |].
  exact (process_csv_data_exceptions _ _ _ _ H).
Defined.

(** X5. When the rows fail validation, [process_csv_data] returns the short
    report: the title, the summary heading and the validator's message in a
    code fence. The data structure and required fields sections are never
    part of a failure report, because [validate_data] hands over no record
    when it fails. *)
Theorem process_csv_data_failure_report
    (DictReader : string -> string + list RawRow)
    (generate_analysis_report : list TypedRow -> list MetricsResult -> string)
    (csv_data : string) (records : list RawRow)
    (error_message : string) (valid_records : list TypedRow) :
  parse_csv_data DictReader csv_data = inr records ->
  validate_data records = Ret (false, error_message, valid_records) ->
  process_csv_data DictReader generate_analysis_report csv_data
  = Ret (failure_report error_message).
Proof.
  intros Hparse Hdata. unfold process_csv_data. rewrite Hparse, Hdata.
  cbn [mbind result_bind negb].
  apply parse_csv_data_records in Hparse as [_ Hrecords].
  destruct (validate_data_outcome records Hrecords)
    as [[Hout _]|(is_valid & message & out & Hout & Hnil & _)];
    rewrite Hdata in Hout; [done |]. injection Hout as <- <- <-.
  rewrite Hnil by done.
  unfold generate_validation_report, failure_report, validation_failed.
  cbv zeta. by rewrite ?string_app_assoc.
Qed.

Lemma process_csv_data_failure_report_witness :
  process_csv_data (rows_reader p3_records) no_analysis ""
  = Ret (failure_report "ERROR: Missing required field(s): scaling_factor in header.").
Proof.
  apply (process_csv_data_failure_report _ _ _ p3_records _ []); by_compute.
Defined.

Lemma validated_present (typed : TypedRow) field :
  validated typed -> field ∈ required_fields -> is_Some (typed !! field).
Proof.
  intros [(? & ?) (? & ? & _) (? & ? & _) (? & ? & _) (? & ? & _) (? & ? & _) (? & ? & _)]
    Hfield.
  unfold required_fields in Hfield. cbn in Hfield.
  repeat (apply elem_of_cons in Hfield as [->|Hfield]; [by eexists |]).
  by apply elem_of_nil in Hfield.
Qed.

Lemma generate_validation_report_success (records : list TypedRow) :
  records <> [] -> Forall validated records ->
  generate_validation_report true records "" = success_report (length records).
Proof.
  intros Hrecords Hvalidated. destruct records as [|first_record rest]; [done |].
  apply Forall_cons in Hvalidated as [Hfirst _].
  unfold generate_validation_report, success_report, required_fields.
  cbv zeta. cbn [field_requirements fmap list_fmap fst foldl].
  rewrite !bool_decide_true
    by (apply validated_present; [done | vm_compute; repeat constructor]).
  by rewrite ?string_app_assoc.
Qed.

(** X6. When every row passes and the metrics of every record are
    computed, [process_csv_data] returns the success report, a blank line
    and the analysis rendered from the validated records and their metrics.
    The success report counts one machine per input row and reports each of
    the seven fields as present; there is one result per row. *)
Theorem process_csv_data_success
    (DictReader : string -> string + list RawRow)
    (generate_analysis_report : list TypedRow -> list MetricsResult -> string)
    (csv_data : string) (records : list RawRow)
    (error_message : string) (valid_records : list TypedRow)
    (calculations : list MetricsResult) :
  parse_csv_data DictReader csv_data = inr records ->
  validate_data records = Ret (true, error_message, valid_records) ->
  comprehension calculate_metrics valid_records = Ret calculations ->
  process_csv_data DictReader generate_analysis_report csv_data
  = Ret (success_report (length records) +:+ newline +:+ newline
           +:+ generate_analysis_report valid_records calculations) /\
  length valid_records = length records /\
  length calculations = length records.
Proof.
  intros Hparse Hdata Hcalc. unfold process_csv_data. rewrite Hparse, Hdata.
  cbn [mbind result_bind negb]. rewrite Hcalc. cbn [mbind result_bind].
  apply parse_csv_data_records in Hparse as [_ Hrecords].
  destruct (validate_data_outcome records Hrecords)
    as [[Hout _]|(is_valid & message & out & Hout & _ & Hvalid)];
    rewrite Hdata in Hout; [done |]. injection Hout as <- <- <-.
  destruct Hvalid as (-> & Hlength & Hvalidated); [done |].
  rewrite generate_validation_report_success, Hlength;
    [| destruct valid_records, records; done | done].
  split; [by rewrite ?string_app_assoc |]. split; [done |].
  apply comprehension_Ret, Forall2_length in Hcalc. congruence.
Qed.

Lemma process_csv_data_success_witness :
  exists calculations : list MetricsResult,
    process_csv_data (rows_reader [sample_row; sample_row]) no_analysis "x"
    = Ret (success_report 2 +:+ newline +:+ newline +:+ "") /\
    length calculations = 2%nat.
Proof.
  destruct (comprehension calculate_metrics [p4_record 30; p4_record 30])
    as [calculations|e] eqn:Hcalc; [| vm_compute in Hcalc; discriminate].
  exists calculations.
  destruct (process_csv_data_success (rows_reader [sample_row; sample_row]) no_analysis "x"
              [sample_row; sample_row] "" [p4_record 30; p4_record 30] calculations)
    as (Hprocess & _ & Hlength); [by_compute | by_compute | exact Hcalc |].
  split; [exact Hprocess | exact Hlength].
Defined.

(** ** White space *)

Lemma chars_app (s1 s2 : string) :
  list_ascii_of_string (s1 +:+ s2) = list_ascii_of_string s1 ++ list_ascii_of_string s2.
Proof.
  induction s1 as [|c s1 IH]; [done |].
  change (c :: list_ascii_of_string (s1 +:+ s2)
          = c :: (list_ascii_of_string s1 ++ list_ascii_of_string s2)).
  by rewrite IH.
Qed.

Lemma chars_inj (s1 s2 : string) :
  list_ascii_of_string s1 = list_ascii_of_string s2 -> s1 = s2.
Proof.
  intros H. rewrite <- (string_of_list_ascii_of_string s1),
    <- (string_of_list_ascii_of_string s2). by rewrite H.
Qed.

Lemma chars_rev_app (s1 s2 : string) :
  list_ascii_of_string (String.rev_app s1 s2)
  = reverse (list_ascii_of_string s1) ++ list_ascii_of_string s2.
Proof.
  revert s2. induction s1 as [|c s1 IH]; intros s2; [done |].
  cbn [String.rev_app list_ascii_of_string]. rewrite IH, reverse_cons, <- app_assoc.
  done.
Qed.

Lemma chars_rev (s : string) :
  list_ascii_of_string (String.rev s) = reverse (list_ascii_of_string s).
Proof. unfold String.rev. by rewrite chars_rev_app, app_nil_r. Qed.

Lemma chars_lstrip sp (s : string) :
  list_ascii_of_string (Py.lstrip_by sp s) = lstrip_list sp (list_ascii_of_string s).
Proof.
  induction s as [|c s IH]; [done |].
  cbn [Py.lstrip_by list_ascii_of_string lstrip_list]. by destruct (sp c).
Qed.

Lemma chars_strip sp (s : string) :
  list_ascii_of_string (Py.strip_by sp s)
  = reverse (lstrip_list sp (reverse (lstrip_list sp (list_ascii_of_string s)))).
Proof. unfold Py.strip_by. by rewrite chars_rev, chars_lstrip, chars_rev, chars_lstrip. Qed.

Lemma chars_all sp (s : string) :
  all_chars sp s = true <-> Forall (fun c => sp c = true) (list_ascii_of_string s).
Proof.
  induction s as [|c s IH]; cbn [all_chars list_ascii_of_string].
  - split; [constructor | done].
  - rewrite andb_true_iff, Forall_cons, IH. done.
Qed.

Lemma lstrip_list_head sp l c : head (lstrip_list sp l) = Some c -> sp c = false.
Proof.
  induction l as [|c' l IH]; [done |]. cbn [lstrip_list].
  destruct (sp c') eqn:Hc'; [done |]. by intros [= <-].
Qed.

Lemma lstrip_list_id sp l :
  (forall c, head l = Some c -> sp c = false) -> lstrip_list sp l = l.
Proof.
  destruct l as [|c l]; [done |]. intros H. cbn [lstrip_list]. by rewrite (H c).
Qed.

Lemma lstrip_list_nil sp l :
  lstrip_list sp l = [] <-> Forall (fun c => sp c = true) l.
Proof.
  induction l as [|c l IH]; cbn [lstrip_list].
  - split; [constructor | done].
  - rewrite Forall_cons. destruct (sp c); [rewrite IH; tauto |].
    split; [done | by intros [[=] _]].
Qed.

Lemma lstrip_list_app sp l1 l2 :
  lstrip_list sp (l1 ++ l2)
  = match lstrip_list sp l1 with
    | [] => lstrip_list sp l2
    | c :: l => (c :: l) ++ l2
    end.
Proof.
  induction l1 as [|c l1 IH]; cbn [app lstrip_list].
  - by destruct (lstrip_list sp l2).
  - by destruct (sp c).
Qed.

Lemma lstrip_list_last sp l :
  lstrip_list sp l <> [] -> last (lstrip_list sp l) = last l.
Proof.
  induction l as [|c l IH]; [done |]. cbn [lstrip_list].
  destruct (sp c); [| done]. intros Hne. rewrite IH by done.
  destruct l; [done |]. done.
Qed.

(** The stripped text begins and ends with no white space. *)
Lemma strip_first sp (s : string) c :
  first_char (Py.strip_by sp s) = Some c -> sp c = false.
Proof.
  unfold first_char. rewrite chars_strip, head_reverse.
  set (l := lstrip_list sp (list_ascii_of_string s)).
  destruct (lstrip_list sp (reverse l)) as [|c' m] eqn:Hm; [done |].
  rewrite <- Hm, lstrip_list_last, last_reverse by (by rewrite Hm).
  apply lstrip_list_head.
Qed.

Lemma strip_last sp (s : string) c :
  last_char (Py.strip_by sp s) = Some c -> sp c = false.
Proof.
  unfold last_char. rewrite chars_strip, last_reverse. apply lstrip_list_head.
Qed.

(** The stripped text is empty exactly for a text of white space only. *)
Lemma strip_empty sp (s : string) :
  Py.strip_by sp s = "" <-> all_chars sp s = true.
Proof.
  rewrite chars_all, <- lstrip_list_nil. split.
  - intros H. apply (f_equal list_ascii_of_string) in H. rewrite chars_strip in H.
    apply (f_equal reverse) in H. rewrite reverse_involutive in H.
    change (reverse (list_ascii_of_string "")) with (@nil ascii) in H.
    apply lstrip_list_nil in H. rewrite Forall_reverse in H.
    destruct (lstrip_list sp (list_ascii_of_string s)) as [|c l] eqn:Hl; [done |].
    apply Forall_cons in H as [Hc _].
    assert (sp c = false) by (apply (lstrip_list_head sp (list_ascii_of_string s)); by rewrite Hl).
    congruence.
  - intros H. apply chars_inj. by rewrite chars_strip, H.
Qed.

(** White space before and after a text is stripped with it. *)
Lemma strip_padding sp (before s after : string) :
  all_chars sp before = true -> all_chars sp after = true ->
  Py.strip_by sp (before +:+ s +:+ after) = Py.strip_by sp s.
Proof.
  intros Hbefore%chars_all%lstrip_list_nil Hafter%chars_all.
  apply chars_inj. rewrite !chars_strip, !chars_app. f_equal.
  rewrite lstrip_list_app, Hbefore, lstrip_list_app.
  destruct (lstrip_list sp (list_ascii_of_string s)) as [|c l] eqn:Hs.
  - apply lstrip_list_nil in Hafter. rewrite Hafter. done.
  - rewrite reverse_app, lstrip_list_app.
    rewrite <- Forall_reverse in Hafter. apply lstrip_list_nil in Hafter.
    by rewrite Hafter.
Qed.

(** ** The checks of one field *)

Lemma invalid_not_missing field what : invalid_msg field what <> missing_msg field.
Proof. intros H. discriminate H. Qed.

Lemma snoc_not_self {A} (l : list A) (a : A) : l ++ [a] <> l.
Proof.
  intros H. apply (f_equal length) in H. rewrite length_app in H. cbn in H. lia.
Qed.

(** X7. A field gets the message "Missing required field: {field}" exactly
    when the row has no such key or its text is white space only. This holds
    for every kind of field; the text is then not converted, so the field
    gets no second message and stores nothing. The turn of the field raises
    [AttributeError] exactly when its cell is [None]. *)
Theorem validate_field_missing (record : RawRow) (field : string)
    (requirements : requirement) row_errors (valid_record : TypedRow) :
  (validate_field record (row_errors, valid_record) (field, requirements)
   = Ret (row_errors ++ ["Missing required field: " +:+ field], valid_record)
   <->
   record !! field = None \/
   exists text, record !! field = Some (Some text) /\ all_chars Py.is_space text = true) /\
  (validate_field record (row_errors, valid_record) (field, requirements)
   = Raise AttributeError
   <->
   record !! field = Some None).
Proof.
  split.
  2: { split; [| apply (validate_field_None record _ (field, requirements))].
       intros Hraise. destruct (decide (record !! field = Some None)) as [|Hcell]; [done |].
       by rewrite (validate_field_acc record _ _ (field, requirements)) in Hraise. }
  unfold validate_field.
  destruct (record !! field) as [[text|]|]; cbn [strip_cell mbind result_bind];
    [| split; [done | by intros [[=]|(text & [=] & _)]] | split; [by left | done]].
  case_bool_decide as Hblank.
  - split; [| done]. intros _. right. exists text. split; [done |].
    by apply strip_empty.
  - split.
    + intros H. exfalso.
      assert (forall what (valid : TypedRow),
                Ret (row_errors ++ [invalid_msg field what], valid)
                = Ret (row_errors ++ [missing_msg field], valid_record) -> False)
        as Hinvalid.
      { intros what valid [= Hmsg _]. apply app_inv_head in Hmsg.
        apply (invalid_not_missing field what). congruence. }
      assert (forall (valid : TypedRow),
                Ret (row_errors, valid)
                = Ret (row_errors ++ [missing_msg field], valid_record) -> False)
        as Hstored.
      { intros valid [= Hmsg _]. symmetry in Hmsg. by apply snoc_not_self in Hmsg. }
      destruct requirements as [| | |min max].
      * by apply Hstored in H.
      * destruct (Py.int _) as [n|]; [destruct (n <=? 0)%Z |];
          first [by apply Hinvalid in H | by apply Hstored in H].
      * destruct (Py.float _) as [x|]; [destruct (Py.float_le_int x 0) |];
          first [by apply Hinvalid in H | by apply Hstored in H].
      * destruct (Py.float _) as [x|]; [destruct (_ || _) |];
          first [by apply Hinvalid in H | by apply Hstored in H].
    + intros [[=]|(text' & [= <-] & Hspace)].
      apply strip_empty in Hspace. by destruct Hblank.
Qed.

Lemma validate_field_missing_witness :
  validate_field blank_id_row ([], ∅) ("machine_id", string_type)
  = Ret (["Missing required field: machine_id"], ∅).
Proof.
  apply (proj1 (validate_field_missing blank_id_row "machine_id" string_type [] ∅)).
  right. exists "  ". split; reflexivity.
Defined.

(** X8. For a field that must be a positive number and is not missing, the
    stripped text is accepted, and stored as that [float], exactly when
    [float] parses it to a value that is not [<= 0]; in every other case the
    one message "Invalid value for {field}: must be a positive number" is
    appended and nothing is stored. A value that is not a NaN passes the
    test exactly when it is greater than 0. *)
Theorem validate_positive_number (record : RawRow) (field text : string)
    row_errors (valid_record : TypedRow) :
  record !! field = Some (Some text) ->
  Py.strip text <> "" ->
  (forall x,
     Py.float (Py.strip text) = Some x -> Py.float_le_int x 0 = false ->
     validate_field record (row_errors, valid_record) (field, positive_number)
     = Ret (row_errors, <[field := VFloat x]> valid_record)) /\
  (~ (exists x, Py.float (Py.strip text) = Some x /\ Py.float_le_int x 0 = false) ->
     validate_field record (row_errors, valid_record) (field, positive_number)
     = Ret (row_errors
              ++ ["Invalid value for " +:+ field +:+ ": must be a positive number"],
            valid_record)) /\
  (forall x,
     is_nan x = false -> Py.float_le_int x 0 = negb (Py.float_gt_int x 0)).
Proof.
  intros Hfield Htext. field_text Hfield.
  split; [| split].
  - by intros x -> ->.
  - intros Hnone. destruct (Py.float _) as [x|]; [| done].
    destruct (Py.float_le_int x 0) eqn:Hx; [done |]. destruct Hnone. by exists x.
  - intros x Hnan. unfold Py.float_le_int, Py.float_gt_int.
    destruct (compare_float_int_Some x 0 Hnan) as [c ->]. by destruct c.
Qed.

Lemma validate_positive_number_witness :
  validate_field sample_row ([], ∅) ("vibration_level", positive_number)
  = Ret ([], <["vibration_level" := VFloat 2]> ∅).
Proof.
  apply (validate_positive_number sample_row "vibration_level" "2").
  - reflexivity.
  - vm_compute. discriminate.
  - by_compute.
  - by_compute.
Defined.

(** X9. A string field that is not missing is always accepted, and what is
    stored is the stripped text: it is not empty, and it neither begins nor
    ends with white space. *)
Theorem validate_string (record : RawRow) (field text : string)
    row_errors (valid_record : TypedRow) :
  record !! field = Some (Some text) ->
  Py.strip text <> "" ->
  validate_field record (row_errors, valid_record) (field, string_type)
  = Ret (row_errors, <[field := VStr (Py.strip text)]> valid_record) /\
  (exists c, first_char (Py.strip text) = Some c /\ Py.is_space c = false) /\
  (exists c, last_char (Py.strip text) = Some c /\ Py.is_space c = false).
Proof.
  intros Hfield Htext. field_text Hfield.
  split; [done |].
  assert (list_ascii_of_string (Py.strip text) <> []) as Hchars.
  { intros H. apply Htext, chars_inj. by rewrite H. }
  split.
  - destruct (first_char (Py.strip text)) as [c|] eqn:Hc.
    + exists c. split; [done |]. by eapply strip_first.
    + by apply head_None in Hc.
  - destruct (last_char (Py.strip text)) as [c|] eqn:Hc.
    + exists c. split; [done |]. by eapply strip_last.
    + by apply last_None in Hc.
Qed.

Lemma validate_string_witness :
  validate_field padded_row ([], ∅) ("machine_id", string_type)
  = Ret ([], <["machine_id" := VStr (Py.strip "M501  ")]> ∅).
Proof.
  apply (validate_string padded_row "machine_id" "M501  ").
  - reflexivity.
  - vm_compute. discriminate.
Defined.

Lemma elem_of_flat_map {A B} (f : A -> list B) (l : list A) (y : B) :
  y ∈ flat_map f l <-> exists x, x ∈ l /\ y ∈ f x.
Proof.
  induction l as [|a l IH]; cbn [flat_map].
  - split; [by intros ?%elem_of_nil | by intros (x & ?%elem_of_nil & _)].
  - rewrite elem_of_app, IH. split.
    + intros [Hy|(x & Hx & Hy)]; [exists a | exists x]; split; try done.
      * apply elem_of_cons; by left.
      * apply elem_of_cons; by right.
    + intros (x & [->|Hx]%elem_of_cons & Hy); [by left | right; by exists x].
Qed.

Lemma field_errors_possible (record : RawRow) entry msg :
  msg ∈ field_errors record entry -> msg ∈ messages_of entry.
Proof.
  destruct entry as [field requirements]. unfold messages_of. cbn [fst snd].
  field_cases record field requirements;
    (intros ?%elem_of_nil || intros ->%list_elem_of_singleton); try done;
    repeat first [apply list_elem_of_here | apply list_elem_of_further].
Qed.

(** X10. The messages [validate_data] collects for a row are taken from
    fifteen fixed texts, one missing message per field and the messages of
    its kind: no message quotes the text of a cell. A row has at most seven
    messages, one per field. Every row that is not short gets its list of
    messages. *)
Theorem row_messages_vocabulary (record : RawRow) :
  (forall row_errors valid_record,
     validate_record record = Ret (row_errors, valid_record) ->
     (forall msg, msg ∈ row_errors -> msg ∈ possible_messages) /\
     (length row_errors <= 7)%nat) /\
  (~ short_row record ->
   exists row_errors valid_record,
     validate_record record = Ret (row_errors, valid_record)) /\
  possible_messages =
    [ "Missing required field: machine_id";
      "Missing required field: runtime_hours";
      "Invalid value for runtime_hours: must be a positive integer";
      "Missing required field: vibration_level";
      "Invalid value for vibration_level: must be a positive number";
      "Missing required field: temperature";
      "Invalid value for temperature: must be between 0 and 200";
      "Invalid value for temperature: must be a number";
      "Missing required field: maintenance_threshold";
      "Invalid value for maintenance_threshold: must be between 0 and 100";
      "Invalid value for maintenance_threshold: must be a number";
      "Missing required field: max_operating_hours";
      "Invalid value for max_operating_hours: must be a positive integer";
      "Missing required field: scaling_factor";
      "Invalid value for scaling_factor: must be a positive number" ].
Proof.
  split; [| split; [| by_compute]].
  - intros row_errors valid_record Hrecord.
    destruct (decide (short_row record)) as [Hshort|Htext];
      [by rewrite validate_record_short in Hrecord |].
    rewrite validate_record_text in Hrecord by done. injection Hrecord as <- _.
    split.
    + intros msg. unfold row_messages, possible_messages.
      rewrite !elem_of_flat_map. intros (entry & Hentry & Hmsg).
      exists entry. split; [done |]. by apply (field_errors_possible record).
    + apply text_row_entries in Htext. unfold row_messages.
      change 7%nat with (length field_requirements).
      induction Htext as [|entry entries Hentry _ IH]; [done |].
      cbn [flat_map]. rewrite length_app. cbn [length].
      destruct (field_outcome record entry Hentry) as [(m & -> & _)|(v & -> & _)];
        cbn; lia.
  - intros Htext. eexists _, _. by apply validate_record_text.
Qed.

Lemma row_messages_vocabulary_witness :
  "Invalid value for temperature: must be between 0 and 200" ∈ possible_messages.
Proof.
  apply (proj1 (row_messages_vocabulary two_errors_row) (row_messages two_errors_row)
           (typed_record two_errors_row)).
  - by_compute.
  - apply (bool_decide_unpack _). vm_compute. exact I.
Defined.

(** ** The outcome of [validate_data] *)

Lemma typed_from_keys (record : RawRow) (typed : TypedRow) key :
  typed_from record typed -> is_Some (typed !! key) <-> key ∈ required_fields.
Proof.
  intros [Hfields Hothers]. split.
  - intros Hkey. destruct (decide (key ∈ required_fields)) as [|Hnot]; [done |].
    rewrite (Hothers key Hnot) in Hkey. by destruct Hkey.
  - intros [entry [-> Hentry]]%list_elem_of_fmap. by apply Hfields.
Qed.

(** X11. Every record [validate_data] returns has exactly the seven keys
    of the schema. Under [machine_id] it holds a non-empty [str]; under
    [runtime_hours] and [max_operating_hours] an [int] greater than 0; under
    [vibration_level] and [scaling_factor] a [float] that is not [<= 0];
    under [temperature] and [maintenance_threshold] a [float] that is neither
    below 0 nor above 200 and 100. These are the values [calculate_metrics]
    is called on. *)
Theorem validate_data_typed_rows (records : list RawRow) (message : string)
    (valid_records : list TypedRow) (typed : TypedRow) :
  validate_data records = Ret (true, message, valid_records) ->
  typed ∈ valid_records ->
  (forall key, is_Some (typed !! key) <-> key ∈ required_fields) /\
  (exists s, typed !! "machine_id" = Some (VStr s) /\ s <> "") /\
  (exists n, typed !! "runtime_hours" = Some (VInt n) /\ (0 < n)%Z) /\
  (exists x, typed !! "vibration_level" = Some (VFloat x) /\ Py.float_le_int x 0 = false) /\
  (exists x, typed !! "temperature" = Some (VFloat x) /\
     Py.float_lt_int x 0 = false /\ Py.float_gt_int x 200 = false) /\
  (exists x, typed !! "maintenance_threshold" = Some (VFloat x) /\
     Py.float_lt_int x 0 = false /\ Py.float_gt_int x 100 = false) /\
  (exists n, typed !! "max_operating_hours" = Some (VInt n) /\ (0 < n)%Z) /\
  (exists x, typed !! "scaling_factor" = Some (VFloat x) /\ Py.float_le_int x 0 = false).
Proof.
  intros (_ & Htext & Hrows & _ & ->)%validate_data_valid
         (record & -> & Hrecord)%list_elem_of_fmap.
  assert (row_messages record = []) as Hnil by (by eapply Forall_forall in Hrows).
  assert (~ short_row record) as Hcells by (by eapply Forall_forall in Htext).
  pose proof (typed_record_typed record Hcells Hnil) as Htyped.
  destruct (typed_from_validated record _ Htyped) as [Hid Hrh Hv Ht Hth Hmh Hs].
  split; [intros key; by eapply typed_from_keys |].
  split; [| done].
  destruct Htyped as [Hfields _].
  destruct (Hfields ("machine_id", string_type)) as [_ Hvalue];
    [vm_compute; repeat constructor |].
  cbn [fst] in Hvalue. destruct Hid as [s Hs'].
  exists s. split; [done |]. rewrite Hs' in Hvalue. symmetry in Hvalue.
  unfold field_value, validate_field in Hvalue. cbn [fst snd] in Hvalue.
  destruct (record !! "machine_id") as [[text|]|];
    cbn [strip_cell mbind result_bind] in Hvalue; [case_bool_decide as Hblank | |];
    cbn [snd] in Hvalue; rewrite ?lookup_empty, ?lookup_insert_eq in Hvalue;
    [done | | done | done].
  by injection Hvalue as <-.
Qed.

Lemma validate_data_typed_rows_witness :
  exists s, p4_record 30 !! "machine_id" = Some (VStr s) /\ s <> "".
Proof.
  apply (validate_data_typed_rows [sample_row; sample_row] ""
           [p4_record 30; p4_record 30] (p4_record 30)).
  - by_compute.
  - apply list_elem_of_here.
Defined.

Lemma join_lines_nonempty (i : nat) (msgs : list string) (lines : list string) :
  Py.join newline (row_line i msgs :: lines) <> "".
Proof.
  unfold Py.join, row_line. cbn [concat].
  destruct lines; rewrite ?string_app_assoc; discriminate.
Qed.

(** X12. The three parts of what [validate_data] returns agree: the flag is
    true exactly when the message is empty, and exactly when records are
    handed over. So [generate_validation_report], which chooses its layout by
    the records being there, never shows the data structure section for a
    failed validation nor the short form for a successful one. *)
Theorem validate_data_consistent (records : list RawRow) (is_valid : bool)
    (message : string) (valid_records : list TypedRow) :
  validate_data records = Ret (is_valid, message, valid_records) ->
  (is_valid = true <-> message = "") /\
  (is_valid = true <-> valid_records <> []).
Proof.
  intros Hdata. destruct is_valid.
  - apply validate_data_valid in Hdata as (Hrecords & _ & _ & -> & ->).
    split; [done |]. split; [| done]. intros _. by destruct records.
  - assert (message <> "" /\ valid_records = []) as [Hmessage ->]; [| split; split; done].
    destruct records as [|first_record rest]; [discriminate |].
    destruct (header_complete_dec first_record) as [Hheader|Hheader].
    + destruct (decide (Exists short_row (first_record :: rest))) as [Hshort|Htext];
        [by rewrite (validate_data_short (first_record :: rest) first_record) in Hdata |].
      apply not_Exists_Forall in Htext; [| intros record; apply _].
      rewrite (validate_data_complete (first_record :: rest) first_record) in Hdata by done.
      unfold report_lines in Hdata.
      destruct (failing_rows 1 (first_record :: rest)) as [|[i msgs] rows];
        [discriminate |].
      cbn [fmap list_fmap fst snd] in Hdata. injection Hdata as <- <-.
      split; [apply join_lines_nonempty | done].
    + destruct (validate_data_incomplete first_record rest Hheader) as [_ Hfail].
      rewrite Hfail in Hdata. injection Hdata as <- <-. split; [| done].
      unfold header_error. discriminate.
Qed.

Lemma validate_data_consistent_witness :
  (false = true <-> Py.join newline (report_lines p2_records) = "") /\
  (false = true <-> @nil TypedRow <> []).
Proof.
  apply (validate_data_consistent p2_records). by_compute.
Defined.

(** X13. White space around the whole input changes nothing: the text is
    stripped before the reader sees it, so the outcome of [parse_csv_data]
    and of [process_csv_data] is the same with and without it. *)
Theorem process_csv_data_padding
    (DictReader : string -> string + list RawRow)
    (generate_analysis_report : list TypedRow -> list MetricsResult -> string)
    (before csv_data after : string) :
  all_chars Py.is_space before = true ->
  all_chars Py.is_space after = true ->
  parse_csv_data DictReader (before +:+ csv_data +:+ after)
  = parse_csv_data DictReader csv_data /\
  process_csv_data DictReader generate_analysis_report (before +:+ csv_data +:+ after)
  = process_csv_data DictReader generate_analysis_report csv_data.
Proof.
  intros Hbefore Hafter.
  assert (parse_csv_data DictReader (before +:+ csv_data +:+ after)
          = parse_csv_data DictReader csv_data) as Hparse.
  { unfold parse_csv_data, Py.strip. cbv zeta. by rewrite strip_padding. }
  split; [exact Hparse |]. unfold process_csv_data. by rewrite Hparse.
Qed.

Lemma process_csv_data_padding_witness :
  process_csv_data (exact_reader "id" [two_errors_row]) no_analysis
    (" " +:+ "id" +:+ newline)
  = process_csv_data (exact_reader "id" [two_errors_row]) no_analysis "id".
Proof.
  apply (process_csv_data_padding (exact_reader "id" [two_errors_row]) no_analysis
           " " "id" newline); reflexivity.
Defined.

(** A row is valid on its own exactly when it is not short and has no
    message; its record is then its typed record. *)
Lemma validate_data_row (record : RawRow) (typed : TypedRow) :
  validate_data [record] = Ret (true, "", [typed]) <->
  ~ short_row record /\ row_messages record = [] /\ typed = typed_record record.
Proof.
  rewrite validate_data_valid, !Forall_singleton. cbn [fmap list_fmap]. split.
  - intros (_ & Htext & Hnil & _ & [= ->]). done.
  - intros (Htext & Hnil & ->). done.
Qed.

(** X14. Rows are validated one by one, and the order of the rows decides
    the order of the records only. A valid batch is valid in every order of
    its rows, and in every order the record at the place of a row is the
    record [validate_data] gives that row on its own: the records follow the
    rows. *)
Theorem validate_data_row_order (l1 l2 : list RawRow)
    (message1 : string) (valid1 : list TypedRow) :
  l1 ≡ₚ l2 ->
  validate_data l1 = Ret (true, message1, valid1) ->
  exists valid2,
    validate_data l2 = Ret (true, "", valid2) /\
    Forall2 (fun record typed => validate_data [record] = Ret (true, "", [typed]))
      l1 valid1 /\
    Forall2 (fun record typed => validate_data [record] = Ret (true, "", [typed]))
      l2 valid2 /\
    valid1 ≡ₚ valid2.
Proof.
  intros Hperm (Hne & Htext & Hrows & -> & ->)%validate_data_valid.
  assert (forall l : list RawRow,
            Forall (fun record => ~ short_row record) l ->
            Forall (fun record => row_messages record = []) l ->
            Forall2 (fun record typed => validate_data [record] = Ret (true, "", [typed]))
              l (typed_record <$> l)) as Hrecords.
  { intros l Hl1 Hl2. apply Forall2_fmap_r, Forall_Forall2_diag.
    rewrite Forall_forall in Hl1, Hl2 |- *. intros record Hrecord.
    apply validate_data_row. auto. }
  assert (Forall (fun record => ~ short_row record) l2) as Htext2 by (by rewrite <- Hperm).
  assert (Forall (fun record => row_messages record = []) l2) as Hrows2
    by (by rewrite <- Hperm).
  exists (typed_record <$> l2). split; [| split; [| split]].
  - apply validate_data_valid. split; [| done].
    intros ->. by apply Permutation_nil_r in Hperm.
  - by apply Hrecords.
  - by apply Hrecords.
  - by apply fmap_Permutation.
Qed.

Lemma validate_data_row_order_witness :
  exists valid2,
    validate_data [low_vibration_row; sample_row] = Ret (true, "", valid2) /\
    Forall2 (fun record typed => validate_data [record] = Ret (true, "", [typed]))
      [sample_row; low_vibration_row] [p4_record 30; low_vibration_record] /\
    Forall2 (fun record typed => validate_data [record] = Ret (true, "", [typed]))
      [low_vibration_row; sample_row] valid2 /\
    [p4_record 30; low_vibration_record] ≡ₚ valid2.
Proof.
  apply (validate_data_row_order [sample_row; low_vibration_row]
           [low_vibration_row; sample_row] "" [p4_record 30; low_vibration_record]).
  - apply perm_swap.
  - by_compute.
Defined.

(** X15. Two batches are both valid exactly when the batch of all their
    rows is, and that batch then gives the records of the first followed by
    the records of the second. *)
Theorem validate_data_app (l1 l2 : list RawRow) (valid_records : list TypedRow) :
  l1 <> [] -> l2 <> [] ->
  validate_data (l1 ++ l2) = Ret (true, "", valid_records) <->
  exists valid1 valid2,
    validate_data l1 = Ret (true, "", valid1) /\
    validate_data l2 = Ret (true, "", valid2) /\
    valid_records = valid1 ++ valid2.
Proof.
  intros Hl1 Hl2. split.
  - intros (_ & [Htext1 Htext2]%Forall_app & [Hrows1 Hrows2]%Forall_app & _ & ->)
             %validate_data_valid.
    exists (typed_record <$> l1), (typed_record <$> l2).
    split; [by apply validate_data_valid |].
    split; [by apply validate_data_valid |]. apply fmap_app.
  - intros (valid1 & valid2 & (_ & Htext1 & Hrows1 & _ & ->)%validate_data_valid
              & (_ & Htext2 & Hrows2 & _ & ->)%validate_data_valid & ->).
    apply validate_data_valid. split; [by destruct l1 |].
    split; [by apply Forall_app |].
    split; [by apply Forall_app |]. split; [done |]. by rewrite fmap_app.
Qed.

Lemma validate_data_app_witness :
  validate_data ([sample_row] ++ [padded_row])
  = Ret (true, "", [p4_record 30] ++ [p4_record 30]).
Proof.
  apply (validate_data_app [sample_row] [padded_row]); [done | done |].
  exists [p4_record 30], [p4_record 30].
  split; [by_compute |]. split; [by_compute | reflexivity].
Defined.

(** X16. [validate_data] raises in two cases only: [IndexError] on the
    empty list, whose first record it reads, and [AttributeError] when the
    first row has every required field and some row is short. In particular
    a short row under an incomplete header raises nothing: the header error
    is returned before any cell is read. *)
Theorem validate_data_raises (records : list RawRow) (e : exn) :
  validate_data records = Raise e <->
  (records = [] /\ e = IndexError) \/
  (e = AttributeError /\
   exists first_record,
     head records = Some first_record /\ header_complete first_record /\
     Exists short_row records).
Proof.
  split.
  - destruct records as [|first_record rest]; [intros [= <-]; by left |].
    destruct (validate_data_outcome (first_record :: rest))
      as [[Hraise Hshort]|(is_valid & message & valid & Hdata & _)]; [done | |].
    + rewrite Hraise. intros [= <-]. by right.
    + by rewrite Hdata.
  - intros [[-> ->]|(-> & first_record & Hhead & Hheader & Hshort)]; [done |].
    by apply (validate_data_short records first_record).
Qed.

Lemma validate_data_raises_witness :
  validate_data [sample_row; short_line_row] = Raise AttributeError /\
  validate_data [delete "machine_id" short_line_row]
    = Ret (false, "ERROR: Missing required field(s): machine_id in header.", []).
Proof.
  split; [| by_compute].
  apply validate_data_raises. right. split; [done |].
  exists sample_row. split; [done |]. split.
  - intros field Hfield. apply (bool_decide_unpack _).
    revert field Hfield. apply Forall_forall. vm_compute. repeat constructor.
  - apply Exists_cons_tl, Exists_cons_hd.
    apply (bool_decide_unpack _). vm_compute. exact I.
Defined.
